(** * BlendLuxCore: the interactive (viewport) render controller and the
      OpenVDB texture node

    A shallow embedding of [engine/viewport.py] ([start_session],
    [view_update], [view_draw]) and of
    [nodes/textures/openVDB.py] ([LuxCoreNodeTexOpenVDB.sub_export]).

    The Python code is a sequence of attribute assignments on the [engine]
    object interleaved with calls into collaborators (the exporter, the
    pyluxcore session, the host UI).  It is embedded in a small monad that
    threads the mutable state, propagates Python exceptions and records every
    call that leaves the module in a log.

    [start_session] runs on a thread of its own.  The two threads are
    interleaved at the granularity of whole calls: the callbacks of the UI
    thread ([view_update], [view_draw]) and the one run of [start_session]
    are steps on the same state. *)

From Stdlib Require Import String List ZArith Bool.
Import ListNotations.

Open Scope string_scope.
Open Scope list_scope.
Open Scope Z_scope.

(** ** Python exceptions *)

Module Py.

(** The classes the handlers of the module tell apart.  Values of [exn] are
    instances of Python's [Exception]; [except Exception] therefore catches
    every one of them, [except RuntimeError] only the first class.
    Interpreter-exit signals, which are not instances of [Exception], are
    outside the model. *)
Inductive exn_class : Type :=
| RuntimeError
| AttributeError
| OtherException (name : string).

Record exn : Type := mkExn { exn_cls : exn_class; exn_msg : string }.

(** [str(error)] *)
Definition str (e : exn) : string := exn_msg e.

(** [isinstance(error, Exception)] *)
Definition is_Exception (_ : exn) : bool := true.

(** [isinstance(error, RuntimeError)] *)
Definition is_RuntimeError (e : exn) : bool :=
  match exn_cls e with RuntimeError => true | _ => false end.

(** What a collaborator call does: it returns a value or raises. *)
Inductive outcome (A : Type) : Type :=
| Returns (a : A)
| Raises (e : exn).
Arguments Returns {A} a.
Arguments Raises {A} e.

(** Attribute access on [None]. *)
Definition none_has_no_attribute (attr : string) : exn :=
  mkExn AttributeError ("'NoneType' object has no attribute '" ++ attr ++ "'")%string.

(** ["=" * 50] and friends. *)
Fixpoint str_mul (s : string) (n : nat) : string :=
  match n with
  | O => ""
  | S k => (s ++ str_mul s k)%string
  end.

End Py.
Export Py.

(** ** Host and renderer objects

    Objects of Blender and of pyluxcore are opaque to the module; they are
    references, told apart by an identity. *)

Inductive Session : Type := SessionRef (id : nat).
Inductive Exporter : Type := ExporterRef (id : nat).
Inductive RenderConfig : Type := RenderConfigRef (id : nat).
Inductive LuxScene : Type := LuxSceneRef (id : nat).
Inductive Props : Type := PropsRef (id : nat).
Inductive Scene : Type := SceneRef (id : nat).

(** The viewport context: the region that is rendered into and presented
    on, known by its pixel size. *)
Record Context : Type := mkContext {
  region_width : Z;
  region_height : Z
}.

Record Depsgraph : Type := mkDepsgraph { scene_eval : Scene }.

(** Clock readings of [time()]; they are only stored. *)
Definition timestamp : Type := Z.

(** ** The frame presentation buffer *)

Module FrameBufferModel.

(** Modelled from the spec: the class [FrameBuffer] of [draw/viewport.py] is
    not among the sources.  Section 4.3 gives its contract: a buffer is built
    for the output pixel dimensions and the target surface of a viewport
    context, [needs_replacement] is true exactly when one of the two differs
    from what the buffer was built for, and no operation has a failure mode.
    Section 8 adds that calls with unchanged dimensions return false: the
    target surface of a viewport is its region, and a region is told from
    another by its pixel size. *)
Record FrameBuffer : Type := mkFrameBuffer {
  fb_dimensions : Z * Z;
  fb_surface : Z * Z
}.

Definition output_dimensions (context : Context) (scene : Scene) : Z * Z :=
  (region_width context, region_height context).

(** Modelled from the spec: the surface a viewport context presents on. *)
Definition target_surface (context : Context) : Z * Z :=
  (region_width context, region_height context).

(** Modelled from the spec: the constructor [FrameBuffer(engine, context, scene)],
    absent from the sources. *)
Definition FrameBuffer_init (context : Context) (scene : Scene) : FrameBuffer :=
  mkFrameBuffer (output_dimensions context scene) (target_surface context).

Definition dimensions_eqb (a b : Z * Z) : bool :=
  (fst a =? fst b) && (snd a =? snd b).

(** Modelled from the spec: [FrameBuffer.needs_replacement(context, scene)],
    absent from the sources. *)
Definition needs_replacement (fb : FrameBuffer) (context : Context) (scene : Scene) : bool :=
  negb (dimensions_eqb (fb_dimensions fb) (output_dimensions context scene))
  || negb (dimensions_eqb (fb_surface fb) (target_surface context)).

End FrameBufferModel.
Export FrameBufferModel.

(** ** The engine object and the module global *)

Record Engine : Type := mkEngine {
  session : option Session;
  exporter : option Exporter;
  framebuffer : option FrameBuffer;
  viewport_start_time : timestamp;
  starting_session : bool
}.

(** The state the three functions share: the attributes of [engine] and the
    module-level [last_cam_str]. *)
Record World : Type := mkWorld {
  engine : Engine;
  last_cam_str : string
}.

(** ** Calls that leave the module *)

Inductive Event : Type :=
(* host UI and console *)
| EPrint (text : string)
| EUpdateStats (title message : string)
| ETagRedraw
| ETracebackPrintExc (error : exn)
| EStartNewThread
| ESleep (milliseconds : Z)
(* exporter *)
| EExporterInit (scene : Scene)
| ECreateSession (x : Exporter) (depsgraph : Depsgraph) (context : Context)
| EGetChanges (x : Exporter) (depsgraph : Depsgraph) (context : Context)
| EExporterUpdate (x : Exporter) (depsgraph : Depsgraph) (context : Context)
                  (s : Session) (changes : Z)
| ECameraConvert (scene : Scene) (context : Context)
(* pyluxcore session *)
| ESessionStart (s : Session)
| EGetRenderConfig (s : Session)
| EGetScene (config : RenderConfig)
| EBeginSceneEdit (s : Session)
| EParse (luxcore_scene : LuxScene) (props : Props)
| EEndSceneEdit (s : Session)
| ESessionUpdateStats (s : Session)
| EWaitNewFrame (s : Session)
(* frame buffer *)
| EFrameBufferInit (context : Context) (scene : Scene)
| EResetDenoiser (fb : FrameBuffer)
| EFrameBufferUpdate (fb : FrameBuffer) (s : option Session) (scene : Scene)
| EFrameBufferDraw (fb : FrameBuffer) (context : Context) (scene : Scene).

(** The behaviour of the collaborators during one invocation.  Every call
    site of the module calls each of them at most once per invocation, so one
    outcome per call is as general as a history-dependent one. *)
Record Env : Type := mkEnv {
  time : timestamp;
  Exporter_init : Scene -> outcome Exporter;
  create_session : Exporter -> Depsgraph -> Context -> outcome Session;
  get_changes : Exporter -> Depsgraph -> Context -> outcome Z;
  exporter_update : Exporter -> Depsgraph -> Context -> Session -> Z -> outcome Session;
  start_new_thread : outcome unit;
  camera_convert : Scene -> Context -> outcome Props;
  str_props : Props -> string;
  session_bool : Session -> bool;
  Start : Session -> outcome unit;
  GetRenderConfig : Session -> outcome RenderConfig;
  GetScene : RenderConfig -> outcome LuxScene;
  BeginSceneEdit : Session -> outcome unit;
  Parse : LuxScene -> Props -> outcome unit;
  EndSceneEdit : Session -> outcome unit;
  UpdateStats : Session -> outcome unit;
  WaitNewFrame : Session -> outcome unit
}.

(** ** The monad: state, exceptions and the call log *)

Module Exec.

Definition M (A : Type) : Type := World -> outcome A * World * list Event.

Definition ret {A} (a : A) : M A := fun w => (Returns a, w, []).

Definition bind {A B} (m : M A) (f : A -> M B) : M B :=
  fun w =>
    match m w with
    | (Returns a, w1, l1) =>
        match f a w1 with
        | (r, w2, l2) => (r, w2, l1 ++ l2)
        end
    | (Raises e, w1, l1) => (Raises e, w1, l1)
    end.

Definition raise {A} (e : exn) : M A := fun w => (Raises e, w, []).

(** [try: body / except <class> as error: handler error]: the state changes
    and the calls of the body before the exception stay. *)
Definition try_except {A} (body : M A) (catches : exn -> bool) (handler : exn -> M A) : M A :=
  fun w =>
    match body w with
    | (Returns a, w1, l1) => (Returns a, w1, l1)
    | (Raises e, w1, l1) =>
        if catches e
        then match handler e w1 with
             | (r, w2, l2) => (r, w2, l1 ++ l2)
             end
        else (Raises e, w1, l1)
    end.

Definition get {A} (field : World -> A) : M A := fun w => (Returns (field w), w, []).

Definition modify (f : World -> World) : M unit := fun w => (Returns tt, f w, []).

(** A call without a failure mode (host callbacks, console, frame buffer). *)
Definition emit (ev : Event) : M unit := fun w => (Returns tt, w, [ev]).

(** A call into a collaborator: it is logged when issued, then returns or
    raises as the collaborator decides. *)
Definition call {A} (ev : Event) (o : outcome A) : M A := fun w => (o, w, [ev]).

Definition result {A} (x : outcome A * World * list Event) : outcome A := fst (fst x).
Definition final {A} (x : outcome A * World * list Event) : World := snd (fst x).
Definition calls {A} (x : outcome A * World * list Event) : list Event := snd x.

End Exec.
Export Exec.

Declare Scope py_scope.
Delimit Scope py_scope with py.
Notation "x <- m ;; k" := (bind m (fun x => k))
  (at level 61, m at next level, right associativity) : py_scope.
Notation "m ;; k" := (bind m (fun _ => k))
  (at level 61, right associativity) : py_scope.
Open Scope py_scope.

(** ** Attribute access on [engine] *)

Definition set_session (v : option Session) : M unit :=
  modify (fun w =>
    mkWorld (mkEngine v (exporter (engine w)) (framebuffer (engine w))
                      (viewport_start_time (engine w)) (starting_session (engine w)))
            (last_cam_str w)).

(** [del engine.session]: the attribute is removed; every use in the module
    is followed at once by [engine.session = None]. *)
Definition del_session : M unit := set_session None.

Definition set_exporter (v : option Exporter) : M unit :=
  modify (fun w =>
    mkWorld (mkEngine (session (engine w)) v (framebuffer (engine w))
                      (viewport_start_time (engine w)) (starting_session (engine w)))
            (last_cam_str w)).

Definition set_framebuffer (v : option FrameBuffer) : M unit :=
  modify (fun w =>
    mkWorld (mkEngine (session (engine w)) (exporter (engine w)) v
                      (viewport_start_time (engine w)) (starting_session (engine w)))
            (last_cam_str w)).

Definition set_viewport_start_time (v : timestamp) : M unit :=
  modify (fun w =>
    mkWorld (mkEngine (session (engine w)) (exporter (engine w)) (framebuffer (engine w))
                      v (starting_session (engine w)))
            (last_cam_str w)).

Definition set_starting_session (v : bool) : M unit :=
  modify (fun w =>
    mkWorld (mkEngine (session (engine w)) (exporter (engine w)) (framebuffer (engine w))
                      (viewport_start_time (engine w)) v)
            (last_cam_str w)).

Definition set_last_cam_str (v : string) : M unit :=
  modify (fun w => mkWorld (engine w) v).

(** [engine.session.<attr>]: the object, or [AttributeError] on [None]. *)
Definition session_attr (attr : string) : M Session :=
  s <- get (fun w => session (engine w)) ;;
  match s with
  | Some s => ret s
  | None => raise (none_has_no_attribute attr)
  end.

Definition exporter_attr (attr : string) : M Exporter :=
  x <- get (fun w => exporter (engine w)) ;;
  match x with
  | Some x => ret x
  | None => raise (none_has_no_attribute attr)
  end.

Definition framebuffer_attr (attr : string) : M FrameBuffer :=
  fb <- get (fun w => framebuffer (engine w)) ;;
  match fb with
  | Some fb => ret fb
  | None => raise (none_has_no_attribute attr)
  end.

(** Host callbacks and console output: fire-and-forget, no result is
    consumed and none of them is a point of failure of the controller. *)
Definition print (text : string) : M unit := emit (EPrint text).
Definition update_stats (title message : string) : M unit := emit (EUpdateStats title message).
Definition tag_redraw : M unit := emit ETagRedraw.
Definition traceback_print_exc (error : exn) : M unit := emit (ETracebackPrintExc error).
Definition sleep (milliseconds : Z) : M unit := emit (ESleep milliseconds).

(** Modelled from the spec: [FrameBuffer.reset_denoiser()],
    [FrameBuffer.update(session, scene)] and
    [FrameBuffer.draw(engine, context, scene)] of [draw/viewport.py], absent
    from the sources.  Section 4.3 gives them no failure mode ([update]
    tolerates a session without a new frame, [draw] is pure presentation), and
    nothing the controller reads depends on what they store. *)
Definition reset_denoiser (fb : FrameBuffer) : M unit := emit (EResetDenoiser fb).
Definition framebuffer_update (fb : FrameBuffer) (s : option Session) (scene : Scene)
    : M unit :=
  emit (EFrameBufferUpdate fb s scene).
Definition framebuffer_draw (fb : FrameBuffer) (context : Context) (scene : Scene)
    : M unit :=
  emit (EFrameBufferDraw fb context scene).

(** Truth value of [engine.session]: [None] is false, an object decides. *)
Definition truthy_session (env : Env) (s : option Session) : bool :=
  match s with
  | Some s => session_bool env s
  | None => false
  end.

(** ** engine/viewport.py *)

(** The [except Exception as error:] block that [start_session] and
    [view_update] share word for word. *)
Definition session_error_handler (error : exn) : M unit :=
  del_session ;;
  set_session None ;;
  set_exporter None ;;
  update_stats "Error: " (str error) ;;
  traceback_print_exc error.

(** [start_session(engine)], run on the background thread. *)
Definition start_session (env : Env) : M unit :=
  try_except
    (s <- session_attr "Start" ;;
     call (ESessionStart s) (Start env s) ;;
     set_viewport_start_time (time env))
    is_Exception
    session_error_handler ;;
  set_starting_session false.

(** [view_update(engine, context, depsgraph, changes=None)] *)
Definition view_update (env : Env) (context : Context) (depsgraph : Depsgraph)
    (changes : option Z) : M unit :=
  starting <- get (fun w => starting_session (engine w)) ;;
  if starting then ret tt
  else
    let scene := scene_eval depsgraph in
    fb <- get (fun w => framebuffer (engine w)) ;;
    (* [if engine.framebuffer:] a frame buffer object is true, [None] is false *)
    (match fb with
     | Some fb => reset_denoiser fb
     | None => ret tt
     end) ;;
    s <- get (fun w => session (engine w)) ;;
    match s with
    | None =>
        print (str_mul "=" 50) ;;
        print "[Engine/Viewport] New session" ;;
        try_except
          (update_stats "Creating Render Session..." "" ;;
           x <- call (EExporterInit scene) (Exporter_init env scene) ;;
           set_exporter (Some x) ;;
           x <- exporter_attr "create_session" ;;
           s <- call (ECreateSession x depsgraph context)
                     (create_session env x depsgraph context) ;;
           set_session (Some s) ;;
           set_starting_session true ;;
           call EStartNewThread (start_new_thread env))
          is_Exception
          session_error_handler
    | Some current =>
        changes <- match changes with
                   | None =>
                       x <- exporter_attr "get_changes" ;;
                       call (EGetChanges x depsgraph context)
                            (get_changes env x depsgraph context)
                   | Some c => ret c
                   end ;;
        x <- exporter_attr "update" ;;
        s <- call (EExporterUpdate x depsgraph context current changes)
                  (exporter_update env x depsgraph context current changes) ;;
        set_session (Some s) ;;
        if negb (changes =? 0) then set_viewport_start_time (time env) else ret tt
    end.

(** [time.sleep(0.1)], in milliseconds. *)
Definition settle_delay : Z := 100.

(** [not engine.framebuffer or engine.framebuffer.needs_replacement(context, scene)] *)
Definition wants_new_framebuffer (fb : option FrameBuffer) (context : Context)
    (scene : Scene) : bool :=
  match fb with
  | None => true
  | Some fb => needs_replacement fb context scene
  end.

(** The body of [if new_cam_str != last_cam_str:]. *)
Definition camera_edit (env : Env) (cam_props : Props) (new_cam_str : string) : M unit :=
  set_last_cam_str new_cam_str ;;
  s <- session_attr "GetRenderConfig" ;;
  config <- call (EGetRenderConfig s) (GetRenderConfig env s) ;;
  luxcore_scene <- call (EGetScene config) (GetScene env config) ;;
  s <- session_attr "BeginSceneEdit" ;;
  call (EBeginSceneEdit s) (BeginSceneEdit env s) ;;
  call (EParse luxcore_scene cam_props) (Parse env luxcore_scene cam_props) ;;
  s <- session_attr "EndSceneEdit" ;;
  call (EEndSceneEdit s) (EndSceneEdit env s) ;;
  sleep settle_delay.

(** [view_draw(engine, context, depsgraph)] *)
Definition view_draw (env : Env) (context : Context) (depsgraph : Depsgraph) : M unit :=
  let scene := scene_eval depsgraph in
  fb <- get (fun w => framebuffer (engine w)) ;;
  (if wants_new_framebuffer fb context scene
   then print "new framebuffer" ;;
        emit (EFrameBufferInit context scene) ;;
        set_framebuffer (Some (FrameBuffer_init context scene))
   else ret tt) ;;
  s <- get (fun w => session (engine w)) ;;
  starting <- get (fun w => starting_session (engine w)) ;;
  (if truthy_session env s && negb starting
   then
     cam_props <- call (ECameraConvert scene context) (camera_convert env scene context) ;;
     let new_cam_str := str_props env cam_props in
     last <- get last_cam_str ;;
     (if negb (String.eqb new_cam_str last)
      then camera_edit env cam_props new_cam_str
      else ret tt) ;;
     try_except
       (s <- session_attr "UpdateStats" ;;
        call (ESessionUpdateStats s) (UpdateStats env s))
       is_RuntimeError
       (fun error =>
          print ("[Engine/Viewport] Error during UpdateStats(): " ++ str error)%string) ;;
     s <- session_attr "WaitNewFrame" ;;
     call (EWaitNewFrame s) (WaitNewFrame env s) ;;
     fb <- framebuffer_attr "update" ;;
     s <- get (fun w => session (engine w)) ;;
     framebuffer_update fb s scene ;;
     fb <- framebuffer_attr "draw" ;;
     framebuffer_draw fb context scene
   else ret tt) ;;
  tag_redraw.

(** The UI thread between two points in time: a list of callbacks, each with
    the behaviour of the collaborators while it runs.  A callback that raises
    hands the exception to the host, which goes on with the next one. *)
Inductive Callback : Type :=
| ViewUpdate (env : Env) (context : Context) (depsgraph : Depsgraph) (changes : option Z)
| ViewDraw (env : Env) (context : Context) (depsgraph : Depsgraph).

Definition run_callback (c : Callback) : M unit :=
  match c with
  | ViewUpdate env context depsgraph changes => view_update env context depsgraph changes
  | ViewDraw env context depsgraph => view_draw env context depsgraph
  end.

Fixpoint run_callbacks (cs : list Callback) (w : World) : World * list Event :=
  match cs with
  | [] => (w, [])
  | c :: cs =>
      let '(_, w1, l1) := run_callback c w in
      let '(w2, l2) := run_callbacks cs w1 in
      (w2, l1 ++ l2)
  end.

Definition is_view_update (c : Callback) : bool :=
  match c with
  | ViewUpdate _ _ _ _ => true
  | ViewDraw _ _ _ => false
  end.


(** The calls of the scoped scene edit and its settle delay. *)
Definition is_scene_edit (ev : Event) : bool :=
  match ev with
  | EBeginSceneEdit _ | EParse _ _ | EEndSceneEdit _ | ESleep _ => true
  | _ => false
  end.



(** ** nodes/textures/openVDB.py *)

Module OpenVDB.

Inductive Object : Type := ObjectRef (id : nat).

(** The value of [utils.matrix_to_list(...)]: a list of floats, opaque here. *)
Inductive MatrixList : Type := MatrixListRef (id : nat).

Record Socket : Type := mkSocket { socket_name : string }.

(** The properties of a node instance that [sub_export] reads;
    [tree_name] is [self.id_data.name]. *)
Record Node : Type := mkNode {
  name : string;
  tree_name : string;
  domain : option Object;
  file_path : string;
  precision : string;
  nx : Z;
  ny : Z;
  nz : Z
}.

(** Values of the [definitions] dict. *)
Inductive value : Type :=
| VStr (s : string)
| VInt (n : Z)
| VList (l : list Z)
| VMatrix (m : MatrixList).

(** A dict literal, keys in the order written. *)
Definition definitions : Type := list (string * value).

Inductive NodeEvent : Type :=
| EAddWarning (msg : string)
| EEvaluatedGet (o : Object) (depsgraph : Depsgraph)
| EMatrixToList (o : Object) (x : Exporter)
| ECreateProps (props : Props) (defs : definitions) (luxcore_name : option string).

(** The collaborators of the node: the base class's [create_props], Blender's
    [evaluated_get] and [bpy.path.abspath], and the mathutils computation of
    lines 122 to 146, which is floating point throughout. *)
Record NodeEnv : Type := mkNodeEnv {
  create_props : Props -> definitions -> option string -> outcome string;
  evaluated_get : Object -> Depsgraph -> outcome Object;
  matrix_transformation : Object -> Exporter -> outcome MatrixList;
  abspath : string -> string
}.

(** Exceptions and a log; the node has no state of its own to change. *)
Definition N (A : Type) : Type := outcome A * list NodeEvent.

Definition nret {A} (a : A) : N A := (Returns a, []).

Definition nbind {A B} (m : N A) (f : A -> N B) : N B :=
  match m with
  | (Returns a, l1) => let '(r, l2) := f a in (r, l1 ++ l2)
  | (Raises e, l1) => (Raises e, l1)
  end.

Definition ncall {A} (ev : NodeEvent) (o : outcome A) : N A := (o, [ev]).

Definition dquote : string := String (Ascii.ascii_of_nat 34) EmptyString.

(** ['Node "%s" in tree "%s": %s' % (self.name, self.id_data.name, error)] *)
Definition warning_message (self : Node) (error : string) : string :=
  ("Node " ++ dquote ++ name self ++ dquote ++ " in tree " ++ dquote
     ++ tree_name self ++ dquote ++ ": " ++ error)%string.

Definition constant_black : definitions :=
  [ ("type", VStr "constfloat3");
    ("value", VList [0; 0; 0]) ].

Definition density_grid (env : NodeEnv) (self : Node) (grid : string)
    (m : MatrixList) : definitions :=
  [ ("type", VStr "densitygrid");
    ("wrap", VStr "black");
    ("storage", VStr (precision self));
    ("nx", VInt (nx self));
    ("ny", VInt (ny self));
    ("nz", VInt (nz self));
    ("openvdb.file", VStr (abspath env (file_path self)));
    ("openvdb.grid", VStr grid);
    ("mapping.type", VStr "globalmapping3d");
    ("mapping.transformation", VMatrix m) ].

(** [not self.domain]: a Blender object is true, [None] is false. *)
Definition no_domain (self : Node) : bool :=
  match domain self with
  | Some _ => false
  | None => true
  end.

(** [LuxCoreNodeTexOpenVDB.sub_export(self, exporter, depsgraph, props,
    luxcore_name=None, output_socket=None)] *)
Definition sub_export (env : NodeEnv) (self : Node) (x : Exporter) (depsgraph : Depsgraph)
    (props : Props) (luxcore_name : option string) (output_socket : option Socket)
    : N string :=
  if no_domain self || String.eqb (file_path self) ""
  then
    let error := "No Domain object selected." in
    let msg := warning_message self error in
    nbind (ncall (EAddWarning msg) (Returns tt)) (fun _ =>
    ncall (ECreateProps props constant_black luxcore_name)
          (create_props env props constant_black luxcore_name))
  else
    nbind (match domain self with
           | Some o => ncall (EEvaluatedGet o depsgraph) (evaluated_get env o depsgraph)
           | None => (Raises (none_has_no_attribute "evaluated_get"), [])
           end) (fun dom =>
    nbind (ncall (EMatrixToList dom x) (matrix_transformation env dom x)) (fun m =>
    nbind (match output_socket with
           | Some sock => nret (socket_name sock)
           | None => (Raises (none_has_no_attribute "name"), [])
           end) (fun grid =>
    let defs := density_grid env self grid m in
    ncall (ECreateProps props defs luxcore_name)
          (create_props env props defs luxcore_name)))).

(** [definitions["type"]] *)
Fixpoint lookup (key : string) (d : definitions) : option value :=
  match d with
  | [] => None
  | (k, v) :: rest => if String.eqb k key then Some v else lookup key rest
  end.

End OpenVDB.


(** ** Concrete collaborators and states, for the examples *)

Module Samples.

Definition scene0 : Scene := SceneRef 0.
Definition depsgraph0 : Depsgraph := mkDepsgraph scene0.
Definition context0 : Context := mkContext 640 480.

(** The viewport after a resize. *)
Definition context1 : Context := mkContext 800 600.
Definition session0 : Session := SessionRef 1.
Definition exporter0 : Exporter := ExporterRef 1.
Definition camera_A : Props := PropsRef 7.

Definition str_props0 (p : Props) : string :=
  match p with
  | PropsRef 7 => "scene.camera.lookat.orig = 0 0 0"
  | PropsRef _ => "scene.camera.lookat.orig = 1 0 0"
  end.

Definition out_of_memory : exn := mkExn RuntimeError "out of memory".
Definition missing_camera : exn := mkExn (OtherException "KeyError") "camera".

(** Collaborators that differ in what the camera export, scene creation,
    session start, scene edit, statistics refresh and frame wait do. *)
Definition env_with (cam : Props) (init : outcome Exporter) (create : outcome Session)
    (start begin stats wait : outcome unit) : Env :=
  mkEnv 1000
        (fun _ => init)
        (fun _ _ _ => create)
        (fun _ _ _ => Returns 0)
        (fun _ _ _ s _ => Returns s)
        (Returns tt)
        (fun _ _ => Returns cam)
        str_props0
        (fun _ => true)
        (fun _ => start)
        (fun _ => Returns (RenderConfigRef 0))
        (fun _ => Returns (LuxSceneRef 0))
        (fun _ => begin)
        (fun _ _ => Returns tt)
        (fun _ => Returns tt)
        (fun _ => stats)
        (fun _ => wait).

(** Every call returns. *)
Definition env_ok : Env :=
  env_with camera_A (Returns exporter0) (Returns session0)
           (Returns tt) (Returns tt) (Returns tt) (Returns tt).


Definition env_create_fails : Env :=
  env_with camera_A (Returns exporter0) (Raises missing_camera)
           (Returns tt) (Returns tt) (Returns tt) (Returns tt).

Definition env_start_fails : Env :=
  env_with camera_A (Returns exporter0) (Returns session0)
           (Raises out_of_memory) (Returns tt) (Returns tt) (Returns tt).

Definition env_edit_fails : Env :=
  env_with camera_A (Returns exporter0) (Returns session0)
           (Returns tt) (Raises out_of_memory) (Returns tt) (Returns tt).

Definition env_stats_runtime_error : Env :=
  env_with camera_A (Returns exporter0) (Returns session0)
           (Returns tt) (Returns tt) (Raises out_of_memory) (Returns tt).

Definition env_stats_other_error : Env :=
  env_with camera_A (Returns exporter0) (Returns session0)
           (Returns tt) (Returns tt) (Raises missing_camera) (Returns tt).

Definition env_wait_fails : Env :=
  env_with camera_A (Returns exporter0) (Returns session0)
           (Returns tt) (Returns tt) (Returns tt) (Raises out_of_memory).

(** A fresh engine: nothing created yet. *)
Definition idle : World := mkWorld (mkEngine None None None 0 false) "".

(** Session and exporter created, background start still in flight. *)
Definition starting : World :=
  mkWorld (mkEngine (Some session0) (Some exporter0) None 0 true) "".

(** Session running, frame buffer built for [context0]. *)
Definition running : World :=
  mkWorld (mkEngine (Some session0) (Some exporter0)
                    (Some (FrameBuffer_init context0 scene0)) 1000 false) "".


Definition node_env : OpenVDB.NodeEnv :=
  OpenVDB.mkNodeEnv
    (fun _ _ luxcore_name =>
       match luxcore_name with
       | Some n => Returns n
       | None => Returns "texture"
       end)
    (fun o _ => Returns o)
    (fun _ _ => Returns (OpenVDB.MatrixListRef 0))
    (fun path => path).

End Samples.

(** ** The two threads together *)

(** One step of the controller: a callback on the UI thread, or the run of
    [start_session] on the background thread. *)
Inductive Step : Type :=
| Ui (c : Callback)
| Background (env : Env).

Definition run_step (st : Step) : M unit :=
  match st with
  | Ui c => run_callback c
  | Background env => start_session env
  end.

Fixpoint run_steps (sts : list Step) (w : World) : World * list Event :=
  match sts with
  | [] => (w, [])
  | st :: sts =>
      let '(_, w1, l1) := run_step st w in
      let '(w2, l2) := run_steps sts w1 in
      (w2, l1 ++ l2)
  end.

(** [view_update] is the only place that assigns a session object, and it
    reads [engine.exporter] right after: a session without an exporter would
    make the update path fail on [None]. *)
Definition session_has_exporter (w : World) : Prop :=
  session (engine w) <> None -> exporter (engine w) <> None.

(** Calls on the exporter, the camera export and the pyluxcore session. *)
Definition is_engine_call (ev : Event) : bool :=
  match ev with
  | EExporterInit _ | ECreateSession _ _ _ | EGetChanges _ _ _
  | EExporterUpdate _ _ _ _ _ | ECameraConvert _ _
  | ESessionStart _ | EGetRenderConfig _ | EGetScene _
  | EBeginSceneEdit _ | EParse _ _ | EEndSceneEdit _
  | ESessionUpdateStats _ | EWaitNewFrame _ => true
  | _ => false
  end.

(** What the user gets to see of a frame: the pull, the draw, the redraw
    request. *)
Definition is_presentation (ev : Event) : bool :=
  match ev with
  | EFrameBufferUpdate _ _ _ | EFrameBufferDraw _ _ _ | ETagRedraw => true
  | _ => false
  end.

(** The state after [engine.framebuffer] has been made to fit, and the calls
    that takes. *)
Definition with_fitting_framebuffer (w : World) (context : Context) (scene : Scene)
    : World :=
  if wants_new_framebuffer (framebuffer (engine w)) context scene
  then mkWorld (mkEngine (session (engine w)) (exporter (engine w))
                         (Some (FrameBuffer_init context scene))
                         (viewport_start_time (engine w))
                         (starting_session (engine w)))
               (last_cam_str w)
  else w.

Definition framebuffer_calls (w : World) (context : Context) (scene : Scene)
    : list Event :=
  if wants_new_framebuffer (framebuffer (engine w)) context scene
  then [EPrint "new framebuffer"; EFrameBufferInit context scene]
  else [].

(** The calls of a frame in which nothing changed and nothing failed. *)
Definition steady_frame_calls (s : Session) (fb : FrameBuffer) (context : Context)
    (scene : Scene) : list Event :=
  [ECameraConvert scene context;
   ESessionUpdateStats s;
   EWaitNewFrame s;
   EFrameBufferUpdate fb (Some s) scene;
   EFrameBufferDraw fb context scene;
   ETagRedraw].

(** The exceptions the collaborators of [view_draw] can hand it. *)
Definition raised_by_collaborator (env : Env) (context : Context) (scene : Scene)
    (e : exn) : Prop :=
  camera_convert env scene context = Raises e \/
  (exists s, GetRenderConfig env s = Raises e) \/
  (exists config, GetScene env config = Raises e) \/
  (exists s, BeginSceneEdit env s = Raises e) \/
  (exists luxcore_scene props, Parse env luxcore_scene props = Raises e) \/
  (exists s, EndSceneEdit env s = Raises e) \/
  (exists s, UpdateStats env s = Raises e) \/
  (exists s, WaitNewFrame env s = Raises e).

Definition is_tag_redraw (ev : Event) : bool :=
  match ev with
  | ETagRedraw => true
  | _ => false
  end.

Definition is_view_draw (c : Callback) : bool := negb (is_view_update c).

(** ** nodes/textures/openVDB.py: the node's sockets and its panel *)

Module VDBNode.

Import OpenVDB.

(** [bbox[0]] and [bbox[1]]: the two corners of a grid's bounding box, in
    cells. *)
Record BBox : Type := mkBBox {
  corner0 : Z * Z * Z;
  corner1 : Z * Z * Z
}.

(** An entry of [self.outputs]: the socket class it was created with
    ([bl_idname]), the socket, and whether it is enabled. *)
Record Output : Type := mkOutput {
  bl_idname : string;
  socket : Socket;
  enabled : bool
}.

(** A node instance: its properties and its output sockets, in order. *)
Record NodeData : Type := mkNodeData {
  props : Node;
  outputs : list Output
}.

(** pyluxcore's OpenVDB readers, the link helper of [utils/node.py] and
    Blender's integer properties.
    [GetOpenVDBGridNames(path, names)] appends to the list it is given; the
    field is what it appends.  [GetOpenVDBGridInfo] is called in two ways in
    this file: with two arguments, returning the pair, and with four, filling
    the lists [bbox] and [gridtype]; [GetOpenVDBGridInfo_into] is what the
    latter leaves in [gridtype].  [IntProperty_keeps v] is what an
    [IntProperty] holds after the assignment of a value [v] outside its
    range. *)
Record Lib : Type := mkLib {
  GetOpenVDBGridNames : string -> outcome (list string);
  GetOpenVDBGridInfo : string -> string -> outcome (BBox * string);
  GetOpenVDBGridInfo_into : string -> string -> outcome (list string);
  copy_links_after_socket_swap : string -> string -> bool -> outcome unit;
  IntProperty_keeps : Z -> Z
}.

(** The range of an [IntProperty] without [min] and [max], as [nx], [ny]
    and [nz] are declared: 32 bits, signed. *)
Definition int_min : Z := - 2 ^ 31.
Definition int_max : Z := 2 ^ 31 - 1.

Definition in_int_range (v : Z) : bool := (int_min <=? v) && (v <=? int_max).

(** The value an [IntProperty] holds after [v] is assigned to it: [v] itself
    when it fits, and otherwise what the host makes of it. *)
Definition int_property (lib : Lib) (v : Z) : Z :=
  if in_int_range v then v else IntProperty_keeps lib v.

Inductive LibCall : Type :=
| CGridNames (path : string)
| CGridInfo (path name : string)
| CGridInfoInto (path name : string)
| CCopyLinks (socket1 socket2 : string) (was_socket1_enabled : bool).

(** State, exceptions and the log of library calls. *)
Definition run (A : Type) : Type := outcome A * NodeData * list LibCall.

Definition index_error : exn := mkExn (OtherException "IndexError") "list index out of range".

Definition key_error (key : string) : exn :=
  mkExn (OtherException "KeyError")
        ("bpy_prop_collection[key]: key " ++ dquote ++ key ++ dquote ++ " not found")%string.

(** [self.outputs.clear()] *)
Definition outputs_clear (d : NodeData) : NodeData := mkNodeData (props d) [].

(** [self.outputs.new(bl_idname, name)]: a new socket, enabled, at the end. *)
Definition outputs_new (idname name : string) (d : NodeData) : NodeData :=
  mkNodeData (props d) (outputs d ++ [mkOutput idname (mkSocket name) true]).

(** [self.nx = v], and the like for [ny] and [nz]. *)
Definition set_nx (lib : Lib) (v : Z) (d : NodeData) : NodeData :=
  mkNodeData (mkNode (name (props d)) (tree_name (props d)) (domain (props d))
                     (file_path (props d)) (precision (props d))
                     (int_property lib v) (ny (props d)) (nz (props d)))
             (outputs d).

Definition set_ny (lib : Lib) (v : Z) (d : NodeData) : NodeData :=
  mkNodeData (mkNode (name (props d)) (tree_name (props d)) (domain (props d))
                     (file_path (props d)) (precision (props d))
                     (nx (props d)) (int_property lib v) (nz (props d)))
             (outputs d).

Definition set_nz (lib : Lib) (v : Z) (d : NodeData) : NodeData :=
  mkNodeData (mkNode (name (props d)) (tree_name (props d)) (domain (props d))
                     (file_path (props d)) (precision (props d))
                     (nx (props d)) (ny (props d)) (int_property lib v))
             (outputs d).

(** The socket class for a grid of type [gridtype]. *)
Definition socket_class (gridtype : string) : string :=
  if String.eqb gridtype "float"
  then "LuxCoreSocketFloatPositive"
  else "LuxCoreSocketColor".

(** The body of [for n in names:] in [update_file_path]. *)
Fixpoint update_file_path_loop (env : NodeEnv) (lib : Lib) (names : list string)
    (d : NodeData) : run unit :=
  match names with
  | [] => (Returns tt, d, [])
  | n :: rest =>
      let path := abspath env (file_path (props d)) in
      match GetOpenVDBGridInfo lib path n with
      | Raises e => (Raises e, d, [CGridInfo path n])
      | Returns (bbox, gridtype) =>
          let d := outputs_new (socket_class gridtype) n d in
          let d := set_nx lib (Z.abs (fst (fst (corner0 bbox)) - fst (fst (corner1 bbox)))) d in
          let d := set_ny lib (Z.abs (snd (fst (corner0 bbox)) - snd (fst (corner1 bbox)))) d in
          let d := set_nz lib (Z.abs (snd (corner0 bbox) - snd (corner1 bbox))) d in
          let '(r, d, l) := update_file_path_loop env lib rest d in
          (r, d, CGridInfo path n :: l)
      end
  end.

(** [update_file_path(self, context)] *)
Definition update_file_path (env : NodeEnv) (lib : Lib) (d : NodeData) : run unit :=
  if negb (String.eqb (file_path (props d)) "")
  then
    let d := outputs_clear d in
    let path := abspath env (file_path (props d)) in
    match GetOpenVDBGridNames lib path with
    | Raises e => (Raises e, d, [CGridNames path])
    | Returns names =>
        let '(r, d, l) := update_file_path_loop env lib names d in
        (r, d, CGridNames path :: l)
    end
  else (Returns tt, d, []).

(** The body of [for n in names:] in [init]. *)
Fixpoint init_loop (env : NodeEnv) (lib : Lib) (names : list string) (d : NodeData)
    : run unit :=
  match names with
  | [] => (Returns tt, d, [])
  | n :: rest =>
      let path := abspath env (file_path (props d)) in
      match GetOpenVDBGridInfo_into lib path n with
      | Raises e => (Raises e, d, [CGridInfoInto path n])
      | Returns gridtype =>
          match gridtype with
          | [] => (Raises index_error, d, [CGridInfoInto path n])
          | gridtype0 :: _ =>
              let d := outputs_new (socket_class gridtype0) n d in
              let '(r, d, l) := init_loop env lib rest d in
              (r, d, CGridInfoInto path n :: l)
          end
      end
  end.

(** [init(self, context)] *)
Definition init (env : NodeEnv) (lib : Lib) (d : NodeData) : run unit :=
  if negb (String.eqb (file_path (props d)) "")
  then
    let d := outputs_clear d in
    let path := abspath env (file_path (props d)) in
    match GetOpenVDBGridNames lib path with
    | Raises e => (Raises e, d, [CGridNames path])
    | Returns names =>
        let '(r, d, l) := init_loop env lib names d in
        (r, d, CGridNames path :: l)
    end
  else (Returns tt, d, []).

(** [self.outputs[key]]: the first socket of that name. *)
Fixpoint outputs_get (key : string) (outs : list Output) : option Output :=
  match outs with
  | [] => None
  | o :: rest =>
      if String.eqb (socket_name (socket o)) key then Some o else outputs_get key rest
  end.

(** [self.outputs[key].enabled = v]: the socket is an object of the
    collection, the assignment shows in it. *)
Fixpoint outputs_set_enabled (key : string) (v : bool) (outs : list Output) : list Output :=
  match outs with
  | [] => []
  | o :: rest =>
      if String.eqb (socket_name (socket o)) key
      then mkOutput (bl_idname o) (socket o) v :: rest
      else o :: outputs_set_enabled key v rest
  end.

(** [x in {...}] for a set of strings. *)
Definition str_in (x : string) (set : list string) : bool :=
  existsb (String.eqb x) set.

(** [update_source(self, context)].  The property [source] is not declared
    in this file; [source] is what reading [self.source] gives. *)
Definition update_source (lib : Lib) (source : outcome string) (d : NodeData) : run unit :=
  match outputs_get "Value" (outputs d) with
  | None => (Raises (key_error "Value"), d, [])
  | Some value_output =>
      match outputs_get "Color" (outputs d) with
      | None => (Raises (key_error "Color"), d, [])
      | Some color_output =>
          let was_value_enabled := enabled value_output in
          match source with
          | Raises e => (Raises e, d, [])
          | Returns src =>
              let d := mkNodeData (props d)
                         (outputs_set_enabled "Value"
                            (str_in src ["density"; "fire"; "heat"]) (outputs d)) in
              let d := mkNodeData (props d)
                         (outputs_set_enabled "Color"
                            (str_in src ["color"; "velocity"]) (outputs d)) in
              (copy_links_after_socket_swap lib "Value" "Color" was_value_enabled,
               d,
               [CCopyLinks "Value" "Color" was_value_enabled])
          end
      end
  end.

(** *** The panel *)

Inductive Modifier : Type := ModifierRef (id : nat).

(** Whose property a row edits: the node's own, or that of the point cache
    of a smoke modifier ([mod.domain_settings.point_cache]). *)
Inductive Owner : Type :=
| OfNode
| OfPointCache (m : Modifier).

Inductive LayoutCall : Type :=
| UsePropertySplit (v : bool)
| UsePropertyDecorate (v : bool)
| PropRow (owner : Owner) (property : string)
| WarningLabel (text : string).

(** [draw_buttons(self, context, layout)].  [find_smoke_domain_modifier] is
    the helper of [utils], absent from the sources: the modifier or [None]. *)
Definition draw_buttons (find_smoke_domain_modifier : Object -> option Modifier)
    (self : Node) : list LayoutCall :=
  [UsePropertySplit true; UsePropertyDecorate false; PropRow OfNode "domain"]
  ++ match domain self with
     | Some o =>
         match find_smoke_domain_modifier o with
         | Some m =>
             (* [mod] is the result of the second, identical call *)
             [PropRow (OfPointCache m) "frame_start";
              PropRow (OfPointCache m) "frame_end"]
         | None =>
             [PropRow OfNode "file_path"; PropRow OfNode "frame_start";
              PropRow OfNode "frame_end"]
         end
     | None =>
         [PropRow OfNode "file_path"; PropRow OfNode "frame_start";
          PropRow OfNode "frame_end"]
     end
  ++ match domain self with
     | None => [WarningLabel "Select the smoke domain object"]
     | Some _ => []
     end.

(** The cells of a bounding box along the three axes. *)
Definition extent (bbox : BBox) : Z * Z * Z :=
  (Z.abs (fst (fst (corner0 bbox)) - fst (fst (corner1 bbox))),
   Z.abs (snd (fst (corner0 bbox)) - snd (fst (corner1 bbox))),
   Z.abs (snd (corner0 bbox) - snd (corner1 bbox))).

(** The properties that nothing in this file assigns. *)
Definition same_settings (a b : Node) : Prop :=
  name a = name b /\ tree_name a = tree_name b /\ domain a = domain b /\
  file_path a = file_path b /\ precision a = precision b.

(** The grids [update_file_path] gets through, with what the library says
    of them: those before the first that cannot be read. *)
Fixpoint readable (lib : Lib) (path : string) (names : list string)
    : list (string * BBox * string) :=
  match names with
  | [] => []
  | n :: rest =>
      match GetOpenVDBGridInfo lib path n with
      | Returns (bbox, gridtype) => (n, bbox, gridtype) :: readable lib path rest
      | Raises _ => []
      end
  end.

(** The socket made for a grid. *)
Definition output_for (g : string * BBox * string) : Output :=
  mkOutput (socket_class (snd g)) (mkSocket (fst (fst g))) true.

Definition cells (self : Node) : Z * Z * Z := (nx self, ny self, nz self).

Definition with_cells (self : Node) (c : Z * Z * Z) : Node :=
  mkNode (name self) (tree_name self) (domain self) (file_path self) (precision self)
         (fst (fst c)) (snd (fst c)) (snd c).

(** What the three properties hold after the cell counts [c] have been
    assigned to them. *)
Definition kept_cells (lib : Lib) (c : Z * Z * Z) : Z * Z * Z :=
  (int_property lib (fst (fst c)), int_property lib (snd (fst c)), int_property lib (snd c)).

(** The cells after the grids [gs] have been gone through, one after the
    other. *)
Definition cells_after (lib : Lib) (gs : list (string * BBox * string)) (c : Z * Z * Z)
    : Z * Z * Z :=
  fold_left (fun _ g => kept_cells lib (extent (snd (fst g)))) gs c.

End VDBNode.

(** ** More concrete collaborators and states *)

Module Cases.

Definition cannot_start_thread : exn := mkExn RuntimeError "can't start new thread".

(** The thread start fails; everything else returns. *)
Definition env_thread_fails : Env :=
  mkEnv 1000
        (fun _ => Returns Samples.exporter0)
        (fun _ _ _ => Returns Samples.session0)
        (fun _ _ _ => Returns 0)
        (fun _ _ _ s _ => Returns s)
        (Raises cannot_start_thread)
        (fun _ _ => Returns Samples.camera_A)
        Samples.str_props0
        (fun _ => true)
        (fun _ => Returns tt)
        (fun _ => Returns (RenderConfigRef 0))
        (fun _ => Returns (LuxSceneRef 0))
        (fun _ => Returns tt)
        (fun _ _ => Returns tt)
        (fun _ => Returns tt)
        (fun _ => Returns tt)
        (fun _ => Returns tt).

(** [Exception()]: an exception raised without a text. *)
Definition silent : exn := mkExn (OtherException "Exception") "".

(** Session creation fails with it. *)
Definition env_create_fails_silently : Env :=
  Samples.env_with Samples.camera_A (Returns Samples.exporter0) (Raises silent)
                   (Returns tt) (Returns tt) (Returns tt) (Returns tt).

Definition session1 : Session := SessionRef 2.

(** The exporter reports the change mask [changed] and replaces the
    session, as it does after a film resize; the clock reads 2000. *)
Definition env_update (changed : Z) (update : outcome Session) : Env :=
  mkEnv 2000
        (fun _ => Returns Samples.exporter0)
        (fun _ _ _ => Returns Samples.session0)
        (fun _ _ _ => Returns changed)
        (fun _ _ _ _ _ => update)
        (Returns tt)
        (fun _ _ => Returns Samples.camera_A)
        Samples.str_props0
        (fun _ => true)
        (fun _ => Returns tt)
        (fun _ => Returns (RenderConfigRef 0))
        (fun _ => Returns (LuxSceneRef 0))
        (fun _ => Returns tt)
        (fun _ _ => Returns tt)
        (fun _ => Returns tt)
        (fun _ => Returns tt)
        (fun _ => Returns tt).

(** A running session whose camera cache holds camera A. *)
Definition steady : World :=
  mkWorld (mkEngine (Some Samples.session0) (Some Samples.exporter0)
                    (Some (FrameBuffer_init Samples.context0 Samples.scene0)) 1000 false)
          "scene.camera.lookat.orig = 0 0 0".

(** A file with a float grid and a vector grid of different sizes. *)
Definition smoke_lib : VDBNode.Lib :=
  VDBNode.mkLib
    (fun _ => Returns ["density"; "velocity"])
    (fun _ n =>
       if String.eqb n "density"
       then Returns (VDBNode.mkBBox (0, 0, 0) (64, 32, 48), "float")
       else Returns (VDBNode.mkBBox (-8, 0, 4) (8, 100, 0), "vec3s"))
    (fun _ n => if String.eqb n "density" then Returns ["float"] else Returns ["vec3s"])
    (fun _ _ _ => Returns tt)
    (fun v => Z.max VDBNode.int_min (Z.min VDBNode.int_max v)).

(** The second grid cannot be read. *)
Definition broken_lib : VDBNode.Lib :=
  VDBNode.mkLib
    (fun _ => Returns ["density"; "velocity"])
    (fun _ n =>
       if String.eqb n "density"
       then Returns (VDBNode.mkBBox (0, 0, 0) (64, 32, 48), "float")
       else Raises Samples.out_of_memory)
    (fun _ n => if String.eqb n "density" then Returns ["float"] else Returns [])
    (fun _ _ _ => Returns tt)
    (fun v => Z.max VDBNode.int_min (Z.min VDBNode.int_max v)).

Definition domain0 : OpenVDB.Object := OpenVDB.ObjectRef 3.

(** A node with a domain and a file, still with the sockets of another file. *)
Definition vdb_node : VDBNode.NodeData :=
  VDBNode.mkNodeData
    (OpenVDB.mkNode "OpenVDB File" "Smoke Volume" (Some domain0) "//smoke.vdb" "half"
                    32 32 32)
    [VDBNode.mkOutput "LuxCoreSocketColor" (OpenVDB.mkSocket "old") false].

(** A node with a smoke domain selected and no file. *)
Definition pathless_node : OpenVDB.Node :=
  OpenVDB.mkNode "OpenVDB File" "Smoke Volume" (Some domain0) "" "half" 32 32 32.

(** A node of the kind [update_source] expects, with the colour socket on. *)
Definition value_color_node : VDBNode.NodeData :=
  VDBNode.mkNodeData
    (OpenVDB.mkNode "OpenVDB File" "Smoke Volume" (Some domain0) "" "half" 32 32 32)
    [VDBNode.mkOutput "LuxCoreSocketFloatPositive" (OpenVDB.mkSocket "Value") false;
     VDBNode.mkOutput "LuxCoreSocketColor" (OpenVDB.mkSocket "Color") true].

Definition find_modifier (o : OpenVDB.Object) : option VDBNode.Modifier :=
  Some (VDBNode.ModifierRef 0).

End Cases.

(** * Properties *)

(** ** Proof automation

    The functions are straight-line code over a handful of outcomes; the
    proofs run them symbolically, one case per outcome. *)

Ltac unfold_setters :=
  unfold session_error_handler, session_attr, exporter_attr, framebuffer_attr,
    print, update_stats, tag_redraw, traceback_print_exc, sleep,
    reset_denoiser, framebuffer_update, framebuffer_draw,
    del_session, set_session, set_exporter, set_framebuffer,
    set_viewport_start_time, set_starting_session, set_last_cam_str in *.

Ltac unfold_monad :=
  unfold bind, try_except, ret, raise, get, modify, emit, call in *.

Ltac open_world w :=
  let s := fresh "s" in
  let x := fresh "x" in
  let fb := fresh "fb" in
  let t := fresh "t" in
  let st := fresh "st" in
  let lc := fresh "lc" in
  destruct w as [[s x fb t st] lc]; cbn [engine last_cam_str session exporter framebuffer
    viewport_start_time starting_session] in *.

(** Case analysis on the next thing the code looks at. *)
Ltac next_case :=
  match goal with
  | |- context [match ?o with _ => _ end] =>
      lazymatch o with
      | context [match _ with _ => _ end] => fail
      | _ => destruct o eqn:?
      end
  end.

(** A concrete log ends with its last [n] calls. *)
Ltac all_but_last n :=
  match goal with
  | |- exists pre, (_, _, ?l) = _ => exists (firstn (length l - n)%nat l); reflexivity
  end.

Ltac step :=
  cbn -[str_mul String.eqb String.append Z.eqb needs_replacement wants_new_framebuffer
       truthy_session] in *.

(** ** The monad *)

Lemma bind_ret_l :
  forall A B (a : A) (f : A -> M B) w, bind (ret a) f w = f a w.
Proof.
  intros A B a f w. unfold bind, ret.
  destruct (f a w) as [[r w2] l2]. reflexivity.
Qed.

Lemma bind_ret_r :
  forall A (m : M A) w, bind m ret w = m w.
Proof.
  intros A m w. unfold bind, ret.
  destruct (m w) as [[[a|e] w1] l1]; [rewrite app_nil_r|]; reflexivity.
Qed.

Lemma bind_assoc :
  forall A B C (m : M A) (f : A -> M B) (g : B -> M C) w,
    bind (bind m f) g w = bind m (fun a => bind (f a) g) w.
Proof.
  intros A B C m f g w. unfold bind.
  destruct (m w) as [[[a|e] w1] l1]; [|reflexivity].
  destruct (f a w1) as [[[b|e] w2] l2]; [|reflexivity].
  destruct (g b w2) as [[r w3] l3]. now rewrite app_assoc.
Qed.

(** An exception that the handler's class does not cover passes through. *)
Lemma try_except_passes :
  forall A (body : M A) catches handler w e w1 l1,
    body w = (Raises e, w1, l1) ->
    catches e = false ->
    try_except body catches handler w = (Raises e, w1, l1).
Proof.
  intros A body catches handler w e w1 l1 Hbody Hclass.
  unfold try_except. now rewrite Hbody, Hclass.
Qed.

(** ** The starting guard *)

Lemma view_update_guarded :
  forall env context depsgraph changes w,
    starting_session (engine w) = true ->
    view_update env context depsgraph changes w = (Returns tt, w, []).
Proof.
  intros env context depsgraph changes w Hst.
  unfold view_update, bind, get, ret.
  rewrite Hst. reflexivity.
Qed.

(** C1. A scene-change event ([view_update]) that arrives while
    [starting_session] is true returns at once: it returns normally, the
    whole state (session, exporter, framebuffer, render start time, and the
    camera cache too) is what it was, and no call leaves the module.  The same
    holds for every sequence of such events. *)
Theorem view_update_dropped_while_starting :
  forall w,
    starting_session (engine w) = true ->
    (forall env context depsgraph changes,
        view_update env context depsgraph changes w = (Returns tt, w, [])) /\
    (forall cs, forallb is_view_update cs = true -> run_callbacks cs w = (w, [])).
Proof.
  intros w Hst. split.
  - intros. now apply view_update_guarded.
  - induction cs as [|c cs IH]; intros Hall.
    + reflexivity.
    + cbn [forallb] in Hall. apply andb_true_iff in Hall as [Hc Hcs].
      destruct c as [env context depsgraph changes|]; [|discriminate].
      cbn [run_callbacks run_callback].
      rewrite (view_update_guarded _ _ _ _ _ Hst), (IH Hcs). reflexivity.
Qed.

Lemma view_update_dropped_while_starting_witness :
  view_update Samples.env_ok Samples.context0 Samples.depsgraph0 None Samples.starting
  = (Returns tt, Samples.starting, []).
Proof.
  apply (proj1 (view_update_dropped_while_starting Samples.starting eq_refl)).
Defined.

(** ** Failure while starting the session *)

(** C3. When [engine.session.Start()] raises on the background thread,
    [start_session] returns normally: the session reference and the exporter
    are [None], the guard is false, the frame buffer, the render start time
    and the camera cache are untouched, and after the call to [Start] the only
    calls are [update_stats("Error: ", str(error))] and the traceback print. *)
Theorem start_session_failure :
  forall env w s e,
    session (engine w) = Some s ->
    Start env s = Raises e ->
    start_session env w =
      (Returns tt,
       mkWorld (mkEngine None None (framebuffer (engine w))
                         (viewport_start_time (engine w)) false)
               (last_cam_str w),
       [ESessionStart s; EUpdateStats "Error: " (str e); ETracebackPrintExc e]).
Proof.
  intros env w s e Hs Hstart.
  open_world w. subst.
  unfold start_session. unfold_setters. unfold_monad. step.
  rewrite Hstart. reflexivity.
Qed.

Lemma start_session_failure_witness :
  start_session Samples.env_start_fails Samples.starting =
    (Returns tt,
     mkWorld (mkEngine None None None 0 false) "",
     [ESessionStart Samples.session0;
      EUpdateStats "Error: " "out of memory";
      ETracebackPrintExc Samples.out_of_memory]).
Proof.
  apply (start_session_failure Samples.env_start_fails Samples.starting
           Samples.session0 Samples.out_of_memory); reflexivity.
Defined.

(** The thread may find [engine.session] gone: the [AttributeError] takes
    the same way out. *)
Lemma start_session_without_session :
  forall env w,
    session (engine w) = None ->
    start_session env w =
      (Returns tt,
       mkWorld (mkEngine None None (framebuffer (engine w))
                         (viewport_start_time (engine w)) false)
               (last_cam_str w),
       [EUpdateStats "Error: " (str (none_has_no_attribute "Start"));
        ETracebackPrintExc (none_has_no_attribute "Start")]).
Proof.
  intros env w Hs. open_world w. subst. reflexivity.
Qed.

(** [start_session] always returns, and always with the guard cleared. *)
Lemma start_session_clears_guard :
  forall env w,
    exists w' l,
      start_session env w = (Returns tt, w', l) /\
      starting_session (engine w') = false.
Proof.
  intros env w. open_world w.
  unfold start_session. unfold_setters. unfold_monad. step.
  repeat (next_case; step); eauto.
Qed.

(** ** Failure while creating the session *)

(** C2, as the code has it.  With no session and the guard clear, when
    [export.Exporter(scene)] or [create_session] raises, [view_update] returns
    normally; afterwards session and exporter are [None] (the guard stays
    false and nothing else changes), and its last two calls are
    [update_stats("Error: ", str(error))] and the traceback print.  The
    message that is surfaced is [str(error)], whatever it is: the only other
    call of [update_stats] carries the empty message. *)
Theorem view_update_creation_failure :
  forall env context depsgraph changes w e,
    starting_session (engine w) = false ->
    session (engine w) = None ->
    (Exporter_init env (scene_eval depsgraph) = Raises e \/
     exists x, Exporter_init env (scene_eval depsgraph) = Returns x /\
               create_session env x depsgraph context = Raises e) ->
    exists pre,
      view_update env context depsgraph changes w =
        (Returns tt,
         mkWorld (mkEngine None None (framebuffer (engine w))
                           (viewport_start_time (engine w)) false)
                 (last_cam_str w),
         pre ++ [EUpdateStats "Error: " (str e); ETracebackPrintExc e]) /\
      forall title message, In (EUpdateStats title message) pre -> message = "".
Proof.
  intros env context depsgraph changes w e Hst Hs Hfail.
  open_world w. subst.
  unfold view_update. unfold_setters. unfold_monad. step.
  destruct Hfail as [Hinit | [x0 [Hinit Hcreate]]].
  - rewrite Hinit. destruct fb; step;
      match goal with
      | |- exists pre, (_, _, ?l) = _ /\ _ =>
          exists (firstn (length l - 2)%nat l); split; [reflexivity|];
          cbn [length Nat.sub firstn In]; intros title message H;
          repeat (destruct H as [H | H]; try discriminate H); try contradiction;
          now inversion H
      end.
  - rewrite Hinit. step. rewrite Hcreate. destruct fb; step;
      match goal with
      | |- exists pre, (_, _, ?l) = _ /\ _ =>
          exists (firstn (length l - 2)%nat l); split; [reflexivity|];
          cbn [length Nat.sub firstn In]; intros title message H;
          repeat (destruct H as [H | H]; try discriminate H); try contradiction;
          now inversion H
      end.
Qed.

Lemma view_update_creation_failure_witness :
  exists pre,
    view_update Samples.env_create_fails Samples.context0 Samples.depsgraph0 None
                Samples.idle =
      (Returns tt, Samples.idle,
       pre ++ [EUpdateStats "Error: " "camera";
               ETracebackPrintExc Samples.missing_camera]) /\
    forall title message, In (EUpdateStats title message) pre -> message = "".
Proof.
  apply (view_update_creation_failure Samples.env_create_fails Samples.context0
           Samples.depsgraph0 None Samples.idle Samples.missing_camera).
  - reflexivity.
  - reflexivity.
  - right. exists Samples.exporter0. split; reflexivity.
Defined.

(** C2 as stated fails for an exception without a text, as [Exception()]
    is: [create_session] raises it, [view_update] returns normally, and every
    message it has passed to [update_stats] is empty, the one of line 64
    too. *)
Lemma view_update_creation_failure_counterexample :
  create_session Cases.env_create_fails_silently Samples.exporter0 Samples.depsgraph0
                 Samples.context0 = Raises Cases.silent /\
  view_update Cases.env_create_fails_silently Samples.context0 Samples.depsgraph0 None
              Samples.idle =
    (Returns tt, Samples.idle,
     [EPrint (str_mul "=" 50);
      EPrint "[Engine/Viewport] New session";
      EUpdateStats "Creating Render Session..." "";
      EExporterInit Samples.scene0;
      ECreateSession Samples.exporter0 Samples.depsgraph0 Samples.context0;
      EUpdateStats "Error: " "";
      ETracebackPrintExc Cases.silent]) /\
  ~ exists title message,
      In (EUpdateStats title message)
         (calls (view_update Cases.env_create_fails_silently Samples.context0
                   Samples.depsgraph0 None Samples.idle)) /\
      message <> "".
Proof.
  split; [reflexivity | split; [reflexivity|]].
  intros (title & message & Hin & Hne). cbn in Hin.
  repeat (destruct Hin as [Hin | Hin]; try discriminate Hin); try contradiction;
    inversion Hin; subst; now apply Hne.
Qed.

(** ** From idle to running *)

(** While the guard is set, a callback of the UI thread returns normally and
    leaves everything but the frame buffer alone. *)
Lemma callback_while_starting :
  forall c w,
    starting_session (engine w) = true ->
    exists w' l,
      run_callback c w = (Returns tt, w', l) /\
      session (engine w') = session (engine w) /\
      exporter (engine w') = exporter (engine w) /\
      viewport_start_time (engine w') = viewport_start_time (engine w) /\
      starting_session (engine w') = true /\
      last_cam_str w' = last_cam_str w.
Proof.
  intros c w Hst. destruct c as [env context depsgraph changes | env context depsgraph].
  - cbn [run_callback]. rewrite (view_update_guarded _ _ _ _ _ Hst).
    exists w, []. repeat split; auto.
  - open_world w. subst. cbn [run_callback].
    unfold view_draw. unfold_setters. unfold_monad. step.
    destruct (wants_new_framebuffer fb context (scene_eval depsgraph)); step;
      rewrite andb_false_r; do 2 eexists; repeat split.
Qed.

Lemma callbacks_while_starting :
  forall cs w,
    starting_session (engine w) = true ->
    let w' := fst (run_callbacks cs w) in
    session (engine w') = session (engine w) /\
    exporter (engine w') = exporter (engine w) /\
    viewport_start_time (engine w') = viewport_start_time (engine w) /\
    starting_session (engine w') = true /\
    last_cam_str w' = last_cam_str w.
Proof.
  induction cs as [|c cs IH]; intros w Hst.
  - cbn. repeat split; auto.
  - destruct (callback_while_starting c w Hst)
      as (w1 & l1 & Hrun & Hs & Hx & Ht & Hst1 & Hlc).
    cbn [run_callbacks]. rewrite Hrun.
    specialize (IH w1 Hst1). cbn zeta in IH.
    destruct (run_callbacks cs w1) as [w2 l2]. cbn [fst] in *.
    destruct IH as (Hs2 & Hx2 & Ht2 & Hst2 & Hlc2).
    repeat split; congruence.
Qed.

Lemma start_session_success :
  forall env w s,
    session (engine w) = Some s ->
    Start env s = Returns tt ->
    start_session env w =
      (Returns tt,
       mkWorld (mkEngine (Some s) (exporter (engine w)) (framebuffer (engine w))
                         (time env) false)
               (last_cam_str w),
       [ESessionStart s]).
Proof.
  intros env w s Hs Hstart.
  open_world w. subst.
  unfold start_session. unfold_setters. unfold_monad. step.
  rewrite Hstart. reflexivity.
Qed.

(** C8. With no session and the guard clear, [view_update] builds the
    exporter, creates the session, sets [starting_session] and schedules
    [start_session], in this order, and returns with the guard true.  Whatever
    callbacks the UI thread runs before the background thread gets to work,
    once [start_session] has run with a [Start] that returns, the render start
    time is the clock reading it took and the guard is false. *)
Theorem idle_to_running :
  forall env context depsgraph changes w x s,
    starting_session (engine w) = false ->
    session (engine w) = None ->
    Exporter_init env (scene_eval depsgraph) = Returns x ->
    create_session env x depsgraph context = Returns s ->
    start_new_thread env = Returns tt ->
    exists w1 pre,
      view_update env context depsgraph changes w =
        (Returns tt, w1,
         pre ++ [EExporterInit (scene_eval depsgraph);
                 ECreateSession x depsgraph context;
                 EStartNewThread]) /\
      session (engine w1) = Some s /\
      exporter (engine w1) = Some x /\
      starting_session (engine w1) = true /\
      forall cs env',
        Start env' s = Returns tt ->
        exists w3,
          start_session env' (fst (run_callbacks cs w1)) =
            (Returns tt, w3, [ESessionStart s]) /\
          session (engine w3) = Some s /\
          exporter (engine w3) = Some x /\
          viewport_start_time (engine w3) = time env' /\
          starting_session (engine w3) = false.
Proof.
  intros env context depsgraph changes w x0 s0 Hst Hs Hinit Hcreate Hthread.
  open_world w. subst.
  assert (Hlater :
    forall w1,
      session (engine w1) = Some s0 ->
      exporter (engine w1) = Some x0 ->
      starting_session (engine w1) = true ->
      forall cs env',
        Start env' s0 = Returns tt ->
        exists w3,
          start_session env' (fst (run_callbacks cs w1)) =
            (Returns tt, w3, [ESessionStart s0]) /\
          session (engine w3) = Some s0 /\
          exporter (engine w3) = Some x0 /\
          viewport_start_time (engine w3) = time env' /\
          starting_session (engine w3) = false).
  { intros w1 Hs1 Hx1 Hst1 cs env' Hstart.
    destruct (callbacks_while_starting cs w1 Hst1) as (Hs2 & Hx2 & _).
    eexists. split.
    - apply start_session_success; [congruence | exact Hstart].
    - cbn. repeat split; congruence. }
  unfold view_update. unfold_setters. unfold_monad. step.
  rewrite Hinit. step. rewrite Hcreate. step. rewrite Hthread.
  destruct fb; step; eexists; (eexists (firstn _ _));
    (split; [ match goal with
              | |- (_, _, ?l) = (_, _, firstn _ _ ++ _) =>
                  instantiate (1 := l); instantiate (1 := (length l - 3)%nat);
                  reflexivity
              end
            | repeat split; apply Hlater; reflexivity ]).
Qed.

Lemma idle_to_running_witness :
  exists w1 pre,
    view_update Samples.env_ok Samples.context0 Samples.depsgraph0 None Samples.idle =
      (Returns tt, w1,
       pre ++ [EExporterInit Samples.scene0;
               ECreateSession Samples.exporter0 Samples.depsgraph0 Samples.context0;
               EStartNewThread]) /\
    session (engine w1) = Some Samples.session0 /\
    exporter (engine w1) = Some Samples.exporter0 /\
    starting_session (engine w1) = true /\
    forall cs env',
      Start env' Samples.session0 = Returns tt ->
      exists w3,
        start_session env' (fst (run_callbacks cs w1)) =
          (Returns tt, w3, [ESessionStart Samples.session0]) /\
        session (engine w3) = Some Samples.session0 /\
        exporter (engine w3) = Some Samples.exporter0 /\
        viewport_start_time (engine w3) = time env' /\
        starting_session (engine w3) = false.
Proof.
  apply (idle_to_running Samples.env_ok Samples.context0 Samples.depsgraph0 None
           Samples.idle Samples.exporter0 Samples.session0); reflexivity.
Defined.

(** ** The redraw path *)

Ltac run_view_draw :=
  unfold view_draw, camera_edit; unfold_setters; unfold_monad; step.

(** From [(r, w, l) = (r', w', l')] to its three equations. *)
Ltac same_run H := inversion H; subst; clear H.

(** C5, as the code has it.  When [engine.session] is [None] or false,
    [view_draw] returns normally and its last call is [tag_redraw].  The call
    is outside every conditional but inside no [finally]: whichever branches a
    [view_draw] that returns has taken, its last call is [tag_redraw], and it
    is the only one; a [view_draw] that raises, which takes a session, a
    clear guard and a call of the session branch that raises, has not called
    [tag_redraw]. *)
Theorem view_draw_requests_redraw :
  forall env context depsgraph w,
    (truthy_session env (session (engine w)) = false ->
     exists w' pre,
       view_draw env context depsgraph w = (Returns tt, w', pre ++ [ETagRedraw])) /\
    (forall w' l,
       view_draw env context depsgraph w = (Returns tt, w', l) ->
       exists pre, l = pre ++ [ETagRedraw] /\ ~ In ETagRedraw pre) /\
    (forall e w' l,
       view_draw env context depsgraph w = (Raises e, w', l) ->
       truthy_session env (session (engine w)) = true /\
       starting_session (engine w) = false /\
       ~ In ETagRedraw l).
Proof.
  intros env context depsgraph w. open_world w. split; [|split].
  - intros Hs. run_view_draw.
    destruct (wants_new_framebuffer fb context (scene_eval depsgraph)); step;
      rewrite Hs; step.
    + exists (mkWorld (mkEngine s x (Some (FrameBuffer_init context (scene_eval depsgraph)))
                                t st) lc),
        [EPrint "new framebuffer"; EFrameBufferInit context (scene_eval depsgraph)].
      reflexivity.
    + eexists; exists []; reflexivity.
  - intros w' l. run_view_draw.
    repeat (next_case; step); intros Hrun; try discriminate Hrun; same_run Hrun;
      match goal with
      | |- exists pre, ?l = _ /\ _ =>
          exists (removelast l); split;
          [ reflexivity | cbn; intuition discriminate ]
      end.
  - intros e w' l. run_view_draw.
    repeat (next_case; step); intros Hrun; try discriminate Hrun; same_run Hrun;
      match goal with
      | H : _ && negb _ = true |- _ =>
          apply andb_true_iff in H as [Htruthy Hguard];
          apply negb_true_iff in Hguard
      end;
      (split; [assumption | split; [assumption | cbn [In]; intuition discriminate]]).
Qed.

Lemma view_draw_requests_redraw_witness :
  (exists w' pre,
      view_draw Samples.env_ok Samples.context0 Samples.depsgraph0 Samples.idle =
        (Returns tt, w', pre ++ [ETagRedraw])) /\
  (exists pre,
      calls (view_draw Samples.env_ok Samples.context0 Samples.depsgraph0 Samples.running) =
        pre ++ [ETagRedraw] /\ ~ In ETagRedraw pre).
Proof.
  split.
  - apply (proj1 (view_draw_requests_redraw Samples.env_ok Samples.context0
                    Samples.depsgraph0 Samples.idle)).
    reflexivity.
  - apply (proj1 (proj2 (view_draw_requests_redraw Samples.env_ok Samples.context0
                           Samples.depsgraph0 Samples.running))
             (final (view_draw Samples.env_ok Samples.context0 Samples.depsgraph0
                       Samples.running))).
    reflexivity.
Defined.

(** C5 as stated fails for a redraw in which the frame wait raises: the
    exception leaves [view_draw] from line 113, and line 116 is not reached. *)
Lemma view_draw_requests_redraw_counterexample :
  WaitNewFrame Samples.env_wait_fails Samples.session0 = Raises Samples.out_of_memory /\
  result (view_draw Samples.env_wait_fails Samples.context0 Samples.depsgraph0
            Samples.running) = Raises Samples.out_of_memory /\
  calls (view_draw Samples.env_wait_fails Samples.context0 Samples.depsgraph0
           Samples.running) =
    [ECameraConvert Samples.scene0 Samples.context0;
     EGetRenderConfig Samples.session0;
     EGetScene (RenderConfigRef 0);
     EBeginSceneEdit Samples.session0;
     EParse (LuxSceneRef 0) Samples.camera_A;
     EEndSceneEdit Samples.session0;
     ESleep settle_delay;
     ESessionUpdateStats Samples.session0;
     EWaitNewFrame Samples.session0] /\
  ~ In ETagRedraw
       (calls (view_draw Samples.env_wait_fails Samples.context0 Samples.depsgraph0
                 Samples.running)).
Proof.
  split; [reflexivity | split; [reflexivity | split; [reflexivity|]]].
  cbn. intuition discriminate.
Qed.

(** ** Replacing the frame buffer *)

Lemma needs_replacement_fresh :
  forall context scene,
    needs_replacement (FrameBuffer_init context scene) context scene = false.
Proof.
  intros context scene.
  unfold needs_replacement, FrameBuffer_init, dimensions_eqb, output_dimensions,
    target_surface.
  cbn [fb_dimensions fb_surface fst snd]. now rewrite !Z.eqb_refl.
Qed.








(** ** The camera edit *)

(** [view_draw] never touches session, exporter, guard or start time. *)
Lemma view_draw_keeps_session :
  forall env context depsgraph w,
    let r := view_draw env context depsgraph w in
    session (engine (final r)) = session (engine w) /\
    starting_session (engine (final r)) = starting_session (engine w) /\
    exporter (engine (final r)) = exporter (engine w) /\
    viewport_start_time (engine (final r)) = viewport_start_time (engine w).
Proof.
  intros env context depsgraph w. open_world w. cbv zeta.
  unfold final. run_view_draw.
  repeat (next_case; step); repeat split; reflexivity.
Qed.

(** Once the camera has been exported in a frame, the cache holds its
    serialisation, whatever happens afterwards in that frame. *)
Lemma camera_cache_after_frame :
  forall env context depsgraph w s p,
    session (engine w) = Some s ->
    starting_session (engine w) = false ->
    session_bool env s = true ->
    camera_convert env (scene_eval depsgraph) context = Returns p ->
    last_cam_str (final (view_draw env context depsgraph w)) = str_props env p.
Proof.
  intros env context depsgraph w s0 p Hs Hst Hbool Hcam. open_world w. subst.
  unfold final. run_view_draw.
  destruct (wants_new_framebuffer fb context (scene_eval depsgraph)); step;
    cbn [truthy_session]; rewrite Hbool; step; rewrite Hcam; step;
    (destruct (String.eqb (str_props env p) lc) eqn:Heq; step;
     [ apply String.eqb_eq in Heq | ]);
    repeat (next_case; step); auto.
Qed.

(** A frame whose camera serialises to the cached string edits nothing. *)
Lemma frame_same_camera :
  forall env context depsgraph w s p,
    session (engine w) = Some s ->
    starting_session (engine w) = false ->
    session_bool env s = true ->
    camera_convert env (scene_eval depsgraph) context = Returns p ->
    str_props env p = last_cam_str w ->
    filter is_scene_edit (calls (view_draw env context depsgraph w)) = [].
Proof.
  intros env context depsgraph w s0 p Hs Hst Hbool Hcam Hsame. open_world w. subst.
  unfold calls. run_view_draw.
  destruct (wants_new_framebuffer fb context (scene_eval depsgraph)); step;
    cbn [truthy_session]; rewrite Hbool; step; rewrite Hcam; step; rewrite String.eqb_refl; step;
    repeat (next_case; step); reflexivity.
Qed.




(** C10. When the camera serialises to a string that differs from the
    cache and a call of the scene edit raises, [view_draw] propagates the
    exception with the cache already holding the new string; a later redraw
    whose camera serialises to that string issues no scene-edit call. *)
Theorem camera_cache_set_before_edit :
  forall env1 context1 depsgraph1 env2 context2 depsgraph2 w s p1 p2 e,
    session (engine w) = Some s ->
    starting_session (engine w) = false ->
    session_bool env1 s = true ->
    session_bool env2 s = true ->
    camera_convert env1 (scene_eval depsgraph1) context1 = Returns p1 ->
    str_props env1 p1 <> last_cam_str w ->
    result (camera_edit env1 p1 (str_props env1 p1) w) = Raises e ->
    camera_convert env2 (scene_eval depsgraph2) context2 = Returns p2 ->
    str_props env2 p2 = str_props env1 p1 ->
    let r1 := view_draw env1 context1 depsgraph1 w in
    result r1 = Raises e /\
    last_cam_str (final r1) = str_props env1 p1 /\
    filter is_scene_edit (calls (view_draw env2 context2 depsgraph2 (final r1))) = [].
Proof.
  intros env1 context1 depsgraph1 env2 context2 depsgraph2 w s0 p1 p2 e
         Hs Hst Hbool1 Hbool2 Hcam1 Hnew Hraise Hcam2 Hsame r1.
  destruct (view_draw_keeps_session env1 context1 depsgraph1 w) as (Hs1 & Hst1 & _).
  fold r1 in Hs1, Hst1. rewrite Hs in Hs1. rewrite Hst in Hst1.
  pose proof (camera_cache_after_frame env1 context1 depsgraph1 w s0 p1
                Hs Hst Hbool1 Hcam1) as Hcache.
  fold r1 in Hcache. split; [|split].
  - subst r1. open_world w. subst. apply String.eqb_neq in Hnew.
    unfold result in *. run_view_draw.
    destruct (wants_new_framebuffer fb context1 (scene_eval depsgraph1)); step;
      cbn [truthy_session]; rewrite Hbool1; step; rewrite Hcam1; step;
      rewrite Hnew; step;
      repeat (next_case; step); congruence.
  - exact Hcache.
  - apply (frame_same_camera env2 context2 depsgraph2 (final r1) s0 p2); congruence.
Qed.

Lemma camera_cache_set_before_edit_witness :
  result (view_draw Samples.env_edit_fails Samples.context0 Samples.depsgraph0
            Samples.running) = Raises Samples.out_of_memory /\
  last_cam_str (final (view_draw Samples.env_edit_fails Samples.context0
                         Samples.depsgraph0 Samples.running))
    = "scene.camera.lookat.orig = 0 0 0" /\
  filter is_scene_edit
    (calls (view_draw Samples.env_ok Samples.context0 Samples.depsgraph0
              (final (view_draw Samples.env_edit_fails Samples.context0
                        Samples.depsgraph0 Samples.running)))) = [].
Proof.
  refine (camera_cache_set_before_edit
            Samples.env_edit_fails Samples.context0 Samples.depsgraph0
            Samples.env_ok Samples.context0 Samples.depsgraph0
            Samples.running Samples.session0 Samples.camera_A Samples.camera_A
            Samples.out_of_memory
            eq_refl eq_refl eq_refl eq_refl eq_refl _ eq_refl eq_refl eq_refl).
  discriminate.
Defined.

(** ** Errors of the statistics refresh *)

(** C7, as the code has it.  When [UpdateStats] is called and raises a
    [RuntimeError], the handler prints it and [view_draw] goes on to
    [WaitNewFrame]; if that returns, the frame is pulled into the frame
    buffer, drawn, the redraw requested, and [view_draw] returns normally;
    if it raises, that exception is the one that propagates.  An error of
    another class raised by [UpdateStats] propagates at once. *)
Theorem stats_refresh_error :
  forall env context depsgraph w s e,
    In (ESessionUpdateStats s) (calls (view_draw env context depsgraph w)) ->
    UpdateStats env s = Raises e ->
    let r := view_draw env context depsgraph w in
    (is_RuntimeError e = true ->
     exists pre post,
       calls r =
         pre ++ [ESessionUpdateStats s;
                 EPrint ("[Engine/Viewport] Error during UpdateStats(): " ++ str e)%string;
                 EWaitNewFrame s] ++ post /\
       match WaitNewFrame env s with
       | Returns _ =>
           result r = Returns tt /\
           exists fb,
             framebuffer (engine (final r)) = Some fb /\
             post = [EFrameBufferUpdate fb (Some s) (scene_eval depsgraph);
                     EFrameBufferDraw fb context (scene_eval depsgraph);
                     ETagRedraw]
       | Raises e' => result r = Raises e' /\ post = []
       end) /\
    (is_RuntimeError e = false ->
     result r = Raises e /\
     exists pre, calls r = pre ++ [ESessionUpdateStats s]).
Proof.
  intros env context depsgraph w s0 e Hin Hstats r. subst r.
  open_world w. unfold result, final, calls in *.
  revert Hin. run_view_draw.
  repeat (next_case; step);
    intros Hin; cbn [In] in Hin;
    repeat match goal with
           | H : _ \/ _ |- _ => destruct H as [H | H]
           end;
    try discriminate; try contradiction;
    try (injection Hin as ->);
    try congruence;
    repeat match goal with
           | H : UpdateStats env s0 = Raises ?e0 |- _ =>
               assert (e0 = e) by congruence; subst e0; clear H
           end;
    (split; intros Hclass; [ | ]); try congruence.
  all: match goal with
       | |- exists pre post, ?l = _ /\ _ =>
           first [ exists (firstn (length l - 6)%nat l); eexists;
                   split; [reflexivity | eauto]
                 | exists (firstn (length l - 3)%nat l); eexists;
                   split; [reflexivity | split; congruence] ]
       | |- _ /\ exists pre, ?l = _ =>
           split; [ reflexivity | exists (removelast l); reflexivity ]
       end.
Qed.

Lemma stats_refresh_error_witness :
  exists pre post,
    calls (view_draw Samples.env_stats_runtime_error Samples.context0 Samples.depsgraph0
             Samples.running) =
      pre ++ [ESessionUpdateStats Samples.session0;
              EPrint "[Engine/Viewport] Error during UpdateStats(): out of memory";
              EWaitNewFrame Samples.session0] ++ post /\
    result (view_draw Samples.env_stats_runtime_error Samples.context0 Samples.depsgraph0
              Samples.running) = Returns tt /\
    exists fb,
      framebuffer (engine (final (view_draw Samples.env_stats_runtime_error
                                    Samples.context0 Samples.depsgraph0 Samples.running)))
        = Some fb /\
      post = [EFrameBufferUpdate fb (Some Samples.session0) Samples.scene0;
              EFrameBufferDraw fb Samples.context0 Samples.scene0;
              ETagRedraw].
Proof.
  refine (proj1 (stats_refresh_error
                   Samples.env_stats_runtime_error Samples.context0 Samples.depsgraph0
                   Samples.running Samples.session0 Samples.out_of_memory _ eq_refl)
                eq_refl).
  cbn. auto 12.
Defined.

(** C7 as stated fails: the handler is [except RuntimeError].  An error of
    another class raised by [UpdateStats] leaves [view_draw] as it came, and
    neither the frame wait nor the redraw request is reached. *)
Lemma stats_other_error_propagates :
  UpdateStats Samples.env_stats_other_error Samples.session0
    = Raises Samples.missing_camera /\
  view_draw Samples.env_stats_other_error Samples.context0 Samples.depsgraph0
            Samples.running
  = (Raises Samples.missing_camera,
     mkWorld (engine Samples.running) "scene.camera.lookat.orig = 0 0 0",
     [ECameraConvert Samples.scene0 Samples.context0;
      EGetRenderConfig Samples.session0;
      EGetScene (RenderConfigRef 0);
      EBeginSceneEdit Samples.session0;
      EParse (LuxSceneRef 0) Samples.camera_A;
      EEndSceneEdit Samples.session0;
      ESleep settle_delay;
      ESessionUpdateStats Samples.session0]).
Proof.
  split; reflexivity.
Qed.

(** ** The OpenVDB texture node *)



(** * Further properties of the controller *)

Ltac run_view_update :=
  unfold view_update; unfold_setters; unfold_monad; step.

Ltac units := repeat match goal with u : unit |- _ => destruct u end.

Ltac run_start_session :=
  unfold start_session; unfold_setters; unfold_monad; step.

(** ** Scene changes without a session *)

(** X1. From idle, [view_update] never raises, whatever the exporter, the
    session creation or the thread start do.  It leaves frame buffer, start
    time and camera cache alone and ends in one of two ways: session and
    exporter are both [None] and its last calls surface the error, or both are
    set, the guard is true and its last call starts the thread. *)
Theorem view_update_from_idle_never_raises :
  forall env context depsgraph changes w,
    starting_session (engine w) = false ->
    session (engine w) = None ->
    exists w' l,
      view_update env context depsgraph changes w = (Returns tt, w', l) /\
      framebuffer (engine w') = framebuffer (engine w) /\
      viewport_start_time (engine w') = viewport_start_time (engine w) /\
      last_cam_str w' = last_cam_str w /\
      ((exists e pre,
           session (engine w') = None /\ exporter (engine w') = None /\
           l = pre ++ [EUpdateStats "Error: " (str e); ETracebackPrintExc e]) \/
       (exists s x pre,
           session (engine w') = Some s /\ exporter (engine w') = Some x /\
           starting_session (engine w') = true /\
           l = pre ++ [EStartNewThread])).
Proof.
  intros env context depsgraph changes w Hst Hs. open_world w. subst.
  run_view_update.
  repeat (next_case; step); units; do 2 eexists; (split; [reflexivity|]);
    cbn [engine session exporter framebuffer viewport_start_time starting_session
         last_cam_str];
    repeat (split; [reflexivity|]);
    first
      [ right; do 2 eexists;
        match goal with
        | |- exists pre, _ /\ _ /\ _ /\ ?l = _ =>
            exists (removelast l); repeat split; reflexivity
        end
      | left; eexists;
        match goal with
        | |- exists pre, _ /\ _ /\ ?l = _ =>
            exists (firstn (length l - 2)%nat l); repeat split; reflexivity
        end ].
Qed.

Lemma view_update_from_idle_never_raises_witness :
  exists w' l,
    view_update Samples.env_create_fails Samples.context0 Samples.depsgraph0 None
                Samples.idle = (Returns tt, w', l).
Proof.
  destruct (view_update_from_idle_never_raises Samples.env_create_fails Samples.context0
              Samples.depsgraph0 None Samples.idle eq_refl eq_refl)
    as (w' & l & H & _).
  exists w', l. exact H.
Defined.

(** ** Redraws that do not render *)

(** Without a session, or with the guard set, a redraw sees to the frame
    buffer and asks for the next redraw; that is all. *)
Lemma view_draw_skips_frame :
  forall env context depsgraph w,
    truthy_session env (session (engine w)) && negb (starting_session (engine w)) = false ->
    view_draw env context depsgraph w =
      (Returns tt,
       with_fitting_framebuffer w context (scene_eval depsgraph),
       framebuffer_calls w context (scene_eval depsgraph) ++ [ETagRedraw]).
Proof.
  intros env context depsgraph w Hskip. open_world w.
  unfold with_fitting_framebuffer, framebuffer_calls.
  cbn [engine framebuffer session exporter viewport_start_time starting_session
       last_cam_str].
  run_view_draw.
  destruct (wants_new_framebuffer fb context (scene_eval depsgraph)); step;
    rewrite Hskip; reflexivity.
Qed.

Lemma callback_while_starting_calls :
  forall c w,
    starting_session (engine w) = true ->
    filter is_engine_call (calls (run_callback c w)) = [] /\
    length (filter is_tag_redraw (calls (run_callback c w)))
      = (if is_view_draw c then 1 else 0)%nat.
Proof.
  intros c w Hst. destruct c as [env context depsgraph changes | env context depsgraph];
    cbn [run_callback is_view_draw is_view_update negb].
  - rewrite (view_update_guarded _ _ _ _ _ Hst). split; reflexivity.
  - rewrite view_draw_skips_frame by (rewrite Hst; apply andb_false_r).
    unfold calls, framebuffer_calls. cbn [snd].
    destruct (wants_new_framebuffer (framebuffer (engine w)) context (scene_eval depsgraph));
      split; reflexivity.
Qed.

Lemma callbacks_while_starting_calls :
  forall cs w,
    starting_session (engine w) = true ->
    filter is_engine_call (snd (run_callbacks cs w)) = [] /\
    length (filter is_tag_redraw (snd (run_callbacks cs w)))
      = length (filter is_view_draw cs).
Proof.
  induction cs as [|c cs IH]; intros w Hst.
  - split; reflexivity.
  - destruct (callback_while_starting c w Hst) as (w1 & l1 & Hrun & _ & _ & _ & Hst1 & _).
    destruct (callback_while_starting_calls c w Hst) as [Hnone Hcount].
    rewrite Hrun in Hnone, Hcount. unfold calls in Hnone, Hcount. cbn [snd] in Hnone, Hcount.
    cbn [run_callbacks]. rewrite Hrun.
    destruct (IH w1 Hst1) as [Hnone2 Hcount2].
    destruct (run_callbacks cs w1) as [w2 l2]. cbn [snd] in *.
    rewrite !filter_app, !length_app, Hnone, Hnone2, Hcount, Hcount2.
    split; [reflexivity|].
    cbn [filter]. destruct (is_view_draw c); reflexivity.
Qed.

(** X2. While the background start is in flight, the UI thread keeps its hands
    off the engine: whatever scene changes and redraws arrive, no call goes to
    the exporter, the camera export or the session; session, exporter, start
    time, guard and camera cache stay as they are; and every redraw still asks
    for the next one. *)
Theorem guard_blocks_engine_calls :
  forall cs w,
    starting_session (engine w) = true ->
    filter is_engine_call (snd (run_callbacks cs w)) = [] /\
    length (filter is_tag_redraw (snd (run_callbacks cs w)))
      = length (filter is_view_draw cs) /\
    session (engine (fst (run_callbacks cs w))) = session (engine w) /\
    exporter (engine (fst (run_callbacks cs w))) = exporter (engine w) /\
    viewport_start_time (engine (fst (run_callbacks cs w))) = viewport_start_time (engine w) /\
    starting_session (engine (fst (run_callbacks cs w))) = true /\
    last_cam_str (fst (run_callbacks cs w)) = last_cam_str w.
Proof.
  intros cs w Hst.
  destruct (callbacks_while_starting_calls cs w Hst) as [Hnone Hcount].
  pose proof (callbacks_while_starting cs w Hst) as Hstate. cbv zeta in Hstate.
  tauto.
Qed.

Lemma guard_blocks_engine_calls_witness :
  filter is_engine_call
    (snd (run_callbacks
            [ViewDraw Samples.env_ok Samples.context0 Samples.depsgraph0;
             ViewUpdate Samples.env_ok Samples.context0 Samples.depsgraph0 None;
             ViewDraw Samples.env_ok Samples.context1 Samples.depsgraph0]
            Samples.starting)) = [] /\
  length (filter is_tag_redraw
            (snd (run_callbacks
                    [ViewDraw Samples.env_ok Samples.context0 Samples.depsgraph0;
                     ViewUpdate Samples.env_ok Samples.context0 Samples.depsgraph0 None;
                     ViewDraw Samples.env_ok Samples.context1 Samples.depsgraph0]
                    Samples.starting))) = 2%nat.
Proof.
  pose proof (guard_blocks_engine_calls
                [ViewDraw Samples.env_ok Samples.context0 Samples.depsgraph0;
                 ViewUpdate Samples.env_ok Samples.context0 Samples.depsgraph0 None;
                 ViewDraw Samples.env_ok Samples.context1 Samples.depsgraph0]
                Samples.starting eq_refl) as (H1 & H2 & _).
  split; [exact H1 | exact H2].
Defined.

(** X3. When the thread cannot be started, the handler clears session and
    exporter but not the guard, which [view_update] has just set and only
    [start_session] clears.  From then on no callback creates a session or
    reaches the engine again. *)
Theorem thread_start_failure_leaves_guard_set :
  forall env context depsgraph changes w x s e,
    starting_session (engine w) = false ->
    session (engine w) = None ->
    Exporter_init env (scene_eval depsgraph) = Returns x ->
    create_session env x depsgraph context = Returns s ->
    start_new_thread env = Raises e ->
    let r := view_update env context depsgraph changes w in
    result r = Returns tt /\
    session (engine (final r)) = None /\
    exporter (engine (final r)) = None /\
    starting_session (engine (final r)) = true /\
    forall cs,
      session (engine (fst (run_callbacks cs (final r)))) = None /\
      starting_session (engine (fst (run_callbacks cs (final r)))) = true /\
      filter is_engine_call (snd (run_callbacks cs (final r))) = [].
Proof.
  intros env context depsgraph changes w x0 s0 e Hst Hs Hinit Hcreate Hthread r.
  assert (Hr : result r = Returns tt /\
               session (engine (final r)) = None /\
               exporter (engine (final r)) = None /\
               starting_session (engine (final r)) = true).
  { subst r. open_world w. subst. unfold result, final. run_view_update.
    rewrite Hinit. step. rewrite Hcreate. step. rewrite Hthread.
    destruct fb; step; repeat split. }
  destruct Hr as (Hres & Hs1 & Hx1 & Hst1).
  repeat (split; [assumption|]).
  intros cs.
  pose proof (callbacks_while_starting cs (final r) Hst1) as Hstate. cbv zeta in Hstate.
  destruct Hstate as (Hs2 & _ & _ & Hst2 & _).
  destruct (callbacks_while_starting_calls cs (final r) Hst1) as [Hnone _].
  repeat split; congruence.
Qed.

Lemma thread_start_failure_leaves_guard_set_witness :
  starting_session
    (engine (final (view_update Cases.env_thread_fails Samples.context0
                      Samples.depsgraph0 None Samples.idle))) = true /\
  session
    (engine (final (view_update Cases.env_thread_fails Samples.context0
                      Samples.depsgraph0 None Samples.idle))) = None.
Proof.
  pose proof (thread_start_failure_leaves_guard_set
                Cases.env_thread_fails Samples.context0 Samples.depsgraph0 None
                Samples.idle Samples.exporter0 Samples.session0
                Cases.cannot_start_thread eq_refl eq_refl eq_refl eq_refl eq_refl)
    as (_ & Hs & _ & Hst & _).
  split; [exact Hst | exact Hs].
Defined.

(** ** Scene changes with a session *)

(** The calls of the update path up to [exporter.update]. *)
Lemma view_update_running_ok_run :
  forall env context depsgraph changes w current x c s',
    starting_session (engine w) = false ->
    session (engine w) = Some current ->
    exporter (engine w) = Some x ->
    (changes = Some c \/
     changes = None /\ get_changes env x depsgraph context = Returns c) ->
    exporter_update env x depsgraph context current c = Returns s' ->
    view_update env context depsgraph changes w =
      (Returns tt,
       mkWorld (mkEngine (Some s') (Some x) (framebuffer (engine w))
                         (if c =? 0 then viewport_start_time (engine w) else time env)
                         false)
               (last_cam_str w),
       match framebuffer (engine w) with
       | Some fb => [EResetDenoiser fb]
       | None => []
       end ++
       match changes with
       | Some _ => []
       | None => [EGetChanges x depsgraph context]
       end ++
       [EExporterUpdate x depsgraph context current c]).
Proof.
  intros env context depsgraph changes w current x0 c s' Hst Hs Hx Hchanges Hupdate.
  open_world w. subst. run_view_update.
  destruct Hchanges as [-> | [-> Hget]].
  - destruct fb; step; rewrite Hupdate; step; destruct (c =? 0); reflexivity.
  - destruct fb; step; rewrite Hget; step; rewrite Hupdate; step;
      destruct (c =? 0); reflexivity.
Qed.

(** X4. With a session and the guard clear, [view_update] hands the current
    session and the change mask to [exporter.update] and keeps the session
    that comes back.  The change mask is the one passed in, and only without
    one is [get_changes] asked.  The render start time is reset to the clock
    exactly when the mask is not empty; exporter, frame buffer, guard and
    camera cache stay. *)
Theorem view_update_running :
  forall env context depsgraph changes w current x c s',
    starting_session (engine w) = false ->
    session (engine w) = Some current ->
    exporter (engine w) = Some x ->
    (changes = Some c \/
     changes = None /\ get_changes env x depsgraph context = Returns c) ->
    exporter_update env x depsgraph context current c = Returns s' ->
    let r := view_update env context depsgraph changes w in
    result r = Returns tt /\
    session (engine (final r)) = Some s' /\
    (c = 0 -> viewport_start_time (engine (final r)) = viewport_start_time (engine w)) /\
    (c <> 0 -> viewport_start_time (engine (final r)) = time env) /\
    exporter (engine (final r)) = Some x /\
    framebuffer (engine (final r)) = framebuffer (engine w) /\
    starting_session (engine (final r)) = false /\
    last_cam_str (final r) = last_cam_str w /\
    filter is_engine_call (calls r) =
      match changes with
      | Some _ => []
      | None => [EGetChanges x depsgraph context]
      end ++ [EExporterUpdate x depsgraph context current c].
Proof.
  intros env context depsgraph changes w current x0 c s' Hst Hs Hx Hchanges Hupdate r.
  subst r.
  rewrite (view_update_running_ok_run env context depsgraph changes w current x0 c s'
             Hst Hs Hx Hchanges Hupdate).
  unfold result, final, calls. cbn [fst snd engine session exporter framebuffer
    viewport_start_time starting_session last_cam_str].
  repeat split.
  - intros ->. reflexivity.
  - intros Hc. apply Z.eqb_neq in Hc. now rewrite Hc.
  - destruct (framebuffer (engine w)); destruct changes; reflexivity.
Qed.

Lemma view_update_running_witness :
  session (engine (final (view_update (Cases.env_update 4 (Returns Cases.session1))
                            Samples.context0 Samples.depsgraph0 None Samples.running)))
    = Some Cases.session1 /\
  viewport_start_time
    (engine (final (view_update (Cases.env_update 4 (Returns Cases.session1))
                      Samples.context0 Samples.depsgraph0 None Samples.running)))
    = 2000.
Proof.
  pose proof (view_update_running
                (Cases.env_update 4 (Returns Cases.session1))
                Samples.context0 Samples.depsgraph0 None Samples.running
                Samples.session0 Samples.exporter0 4 Cases.session1
                eq_refl eq_refl eq_refl (or_intror (conj eq_refl eq_refl)) eq_refl)
    as (_ & Hs & _ & Ht & _).
  split; [exact Hs | apply Ht; discriminate].
Defined.

(** X5. The update path has no handler.  An exception from [get_changes] or
    from [exporter.update] leaves [view_update] as it came: the session and
    everything else are as before, and nothing is shown on the status line. *)
Theorem view_update_running_error_propagates :
  forall env context depsgraph changes w current x e,
    starting_session (engine w) = false ->
    session (engine w) = Some current ->
    exporter (engine w) = Some x ->
    (changes = None /\ get_changes env x depsgraph context = Raises e \/
     exists c,
       (changes = Some c \/
        changes = None /\ get_changes env x depsgraph context = Returns c) /\
       exporter_update env x depsgraph context current c = Raises e) ->
    let r := view_update env context depsgraph changes w in
    result r = Raises e /\
    final r = w /\
    forall title message, ~ In (EUpdateStats title message) (calls r).
Proof.
  intros env context depsgraph changes w current x0 e Hst Hs Hx Hfail r. subst r.
  open_world w. subst. unfold result, final, calls. run_view_update.
  destruct Hfail as [[-> Hget] | (c & [-> | [-> Hget]] & Hupdate)].
  - destruct fb; step; rewrite Hget; step; repeat split;
      intros title message Hin; cbn in Hin; intuition discriminate.
  - destruct fb; step; rewrite Hupdate; step; repeat split;
      intros title message Hin; cbn in Hin; intuition discriminate.
  - destruct fb; step; rewrite Hget; step; rewrite Hupdate; step; repeat split;
      intros title message Hin; cbn in Hin; intuition discriminate.
Qed.

Lemma view_update_running_error_propagates_witness :
  result (view_update (Cases.env_update 4 (Raises Samples.out_of_memory))
            Samples.context0 Samples.depsgraph0 None Samples.running)
    = Raises Samples.out_of_memory /\
  final (view_update (Cases.env_update 4 (Raises Samples.out_of_memory))
           Samples.context0 Samples.depsgraph0 None Samples.running)
    = Samples.running.
Proof.
  pose proof (view_update_running_error_propagates
                (Cases.env_update 4 (Raises Samples.out_of_memory))
                Samples.context0 Samples.depsgraph0 None Samples.running
                Samples.session0 Samples.exporter0 Samples.out_of_memory
                eq_refl eq_refl eq_refl
                (or_intror (ex_intro _ 4 (conj (or_intror (conj eq_refl eq_refl)) eq_refl))))
    as (Hr & Hw & _).
  split; [exact Hr | exact Hw].
Defined.

(** ** The background thread *)

(** X6. [start_session] never raises and never returns with the guard set.  It
    does not touch frame buffer or camera cache.  It ends in one of two ways:
    the session it found is kept, next to the exporter, and the start time is
    the clock reading; or session and exporter are both [None] and the start
    time is what it was. *)
Theorem start_session_outcomes :
  forall env w,
    exists w' l,
      start_session env w = (Returns tt, w', l) /\
      starting_session (engine w') = false /\
      framebuffer (engine w') = framebuffer (engine w) /\
      last_cam_str w' = last_cam_str w /\
      ((session (engine w') = session (engine w) /\
        session (engine w') <> None /\
        exporter (engine w') = exporter (engine w) /\
        viewport_start_time (engine w') = time env) \/
       (session (engine w') = None /\
        exporter (engine w') = None /\
        viewport_start_time (engine w') = viewport_start_time (engine w) /\
        exists e, In (EUpdateStats "Error: " (str e)) l)).
Proof.
  intros env w. open_world w. run_start_session.
  repeat (next_case; step); units; do 2 eexists; (split; [reflexivity|]);
    cbn [engine session exporter framebuffer viewport_start_time starting_session
         last_cam_str];
    repeat (split; [reflexivity|]);
    first [ left; repeat split; congruence
          | right; repeat split;
            first [ eexists; cbn [In]; right; left; reflexivity
                  | exists (none_has_no_attribute "Start"); cbn [In]; left; reflexivity ] ].
Qed.

Lemma start_session_outcomes_witness :
  exists w' l,
    start_session Samples.env_start_fails Samples.starting = (Returns tt, w', l) /\
    starting_session (engine w') = false.
Proof.
  destruct (start_session_outcomes Samples.env_start_fails Samples.starting)
    as (w' & l & Hrun & Hst & _).
  exists w', l. split; [exact Hrun | exact Hst].
Defined.

(** ** An invariant of the engine state *)

Lemma step_keeps_session_has_exporter :
  forall st w,
    session_has_exporter w -> session_has_exporter (final (run_step st w)).
Proof.
  intros [[env context depsgraph changes | env context depsgraph] | env] w Hinv;
    cbn [run_step run_callback].
  - open_world w. unfold session_has_exporter, final in *. run_view_update.
    repeat (next_case; step);
      solve [ exact Hinv | congruence | intros _; discriminate
            | intros _; apply Hinv; discriminate ].
  - destruct (view_draw_keeps_session env context depsgraph w) as (Hs & _ & Hx & _).
    unfold session_has_exporter in *. rewrite Hs, Hx. exact Hinv.
  - open_world w. unfold session_has_exporter, final in *. run_start_session.
    repeat (next_case; step);
      solve [ exact Hinv | congruence | intros _; discriminate
            | intros _; apply Hinv; discriminate ].
Qed.

(** X7. A session never comes without the exporter that made it.  The property
    holds for the fresh engine and is kept by every scene change, every
    redraw and every run of [start_session], in any order and whatever the
    collaborators do; so the update path of [view_update] always finds an
    exporter to call. *)
Theorem session_never_without_exporter :
  forall sts w,
    session_has_exporter w ->
    forall s,
      session (engine (fst (run_steps sts w))) = Some s ->
      exists x, exporter (engine (fst (run_steps sts w))) = Some x.
Proof.
  assert (Hkeep : forall sts w,
             session_has_exporter w -> session_has_exporter (fst (run_steps sts w))).
  { induction sts as [|st sts IH]; intros w Hinv.
    - exact Hinv.
    - pose proof (step_keeps_session_has_exporter st w Hinv) as H1.
      cbn [run_steps]. destruct (run_step st w) as [[r1 w1] l1].
      unfold final in H1. cbn [fst snd] in H1.
      specialize (IH w1 H1). destruct (run_steps sts w1) as [w2 l2]. exact IH. }
  intros sts w Hinv s0 Hs.
  specialize (Hkeep sts w Hinv). unfold session_has_exporter in Hkeep.
  destruct (exporter (engine (fst (run_steps sts w)))) as [x0|].
  - now exists x0.
  - exfalso. apply Hkeep; congruence.
Qed.

Lemma session_never_without_exporter_witness :
  exists x,
    exporter
      (engine (fst (run_steps
                      [Ui (ViewUpdate Samples.env_ok Samples.context0 Samples.depsgraph0 None);
                       Ui (ViewDraw Samples.env_ok Samples.context0 Samples.depsgraph0);
                       Background Samples.env_ok;
                       Ui (ViewUpdate (Cases.env_update 4 (Returns Cases.session1))
                                      Samples.context0 Samples.depsgraph0 None)]
                      Samples.idle))) = Some x.
Proof.
  refine (session_never_without_exporter
            [Ui (ViewUpdate Samples.env_ok Samples.context0 Samples.depsgraph0 None);
             Ui (ViewDraw Samples.env_ok Samples.context0 Samples.depsgraph0);
             Background Samples.env_ok;
             Ui (ViewUpdate (Cases.env_update 4 (Returns Cases.session1))
                            Samples.context0 Samples.depsgraph0 None)]
            Samples.idle _ Cases.session1 eq_refl).
  intros H. exfalso. apply H. reflexivity.
Defined.

(** ** Trying again *)

(** X8. Nothing retries a failed start by itself, and nothing stands in the way
    of the next scene change doing so: after [start_session] has failed, a
    [view_update] whose collaborators return builds a new exporter and a new
    session and schedules their start. *)
Theorem scene_change_retries_failed_start :
  forall env1 env2 context depsgraph changes w s e x s2,
    session (engine w) = Some s ->
    Start env1 s = Raises e ->
    Exporter_init env2 (scene_eval depsgraph) = Returns x ->
    create_session env2 x depsgraph context = Returns s2 ->
    start_new_thread env2 = Returns tt ->
    let r := view_update env2 context depsgraph changes (final (start_session env1 w)) in
    result r = Returns tt /\
    session (engine (final r)) = Some s2 /\
    exporter (engine (final r)) = Some x /\
    starting_session (engine (final r)) = true /\
    exists pre,
      calls r = pre ++ [EExporterInit (scene_eval depsgraph);
                        ECreateSession x depsgraph context;
                        EStartNewThread] /\
      filter is_engine_call pre = [] /\
      ~ In EStartNewThread pre.
Proof.
  intros env1 env2 context depsgraph changes w s0 e x0 s2 Hs Hstart Hinit Hcreate Hthread r.
  subst r. open_world w. subst.
  assert (Hfirst : final (start_session env1 (mkWorld (mkEngine (Some s0) x fb t st) lc))
                   = mkWorld (mkEngine None None fb t false) lc).
  { unfold final. run_start_session. rewrite Hstart. reflexivity. }
  rewrite Hfirst. unfold result, final, calls. run_view_update.
  rewrite Hinit. step. rewrite Hcreate. step. rewrite Hthread.
  destruct fb; step; repeat (split; [reflexivity|]);
    match goal with
    | |- exists pre, ?l = _ /\ _ =>
        exists (firstn (length l - 3)%nat l);
        split; [reflexivity | split; [reflexivity | cbn; intuition discriminate]]
    end.
Qed.

Lemma scene_change_retries_failed_start_witness :
  session
    (engine (final (view_update Samples.env_ok Samples.context0 Samples.depsgraph0 None
                      (final (start_session Samples.env_start_fails Samples.starting)))))
    = Some Samples.session0 /\
  exists pre,
    calls (view_update Samples.env_ok Samples.context0 Samples.depsgraph0 None
             (final (start_session Samples.env_start_fails Samples.starting))) =
      pre ++ [EExporterInit Samples.scene0;
              ECreateSession Samples.exporter0 Samples.depsgraph0 Samples.context0;
              EStartNewThread] /\
    filter is_engine_call pre = [] /\
    ~ In EStartNewThread pre.
Proof.
  pose proof (scene_change_retries_failed_start
                Samples.env_start_fails Samples.env_ok Samples.context0
                Samples.depsgraph0 None Samples.starting Samples.session0
                Samples.out_of_memory Samples.exporter0 Samples.session0
                eq_refl eq_refl eq_refl eq_refl eq_refl)
    as (_ & Hs & _ & _ & Hcalls).
  split; [exact Hs | exact Hcalls].
Defined.

(** ** Frames *)

Lemma steady_frame :
  forall env context depsgraph w s fb p,
    session (engine w) = Some s ->
    session_bool env s = true ->
    starting_session (engine w) = false ->
    framebuffer (engine w) = Some fb ->
    needs_replacement fb context (scene_eval depsgraph) = false ->
    camera_convert env (scene_eval depsgraph) context = Returns p ->
    str_props env p = last_cam_str w ->
    UpdateStats env s = Returns tt ->
    WaitNewFrame env s = Returns tt ->
    view_draw env context depsgraph w =
      (Returns tt, w, steady_frame_calls s fb context (scene_eval depsgraph)).
Proof.
  intros env context depsgraph w s0 fb0 p Hs Hbool Hst Hfb Hfit Hcam Hsame Hstats Hwait.
  open_world w. subst. run_view_draw.
  cbn [wants_new_framebuffer]. rewrite Hfit. step.
  cbn [truthy_session]. rewrite Hbool. step. rewrite Hcam. step.
  rewrite String.eqb_refl. step. rewrite Hstats. step. rewrite Hwait. reflexivity.
Qed.

(** X9. A frame in which the camera has not moved, the viewport has not changed
    and no call fails leaves the whole state as it was, so such frames can
    follow one another for ever: [n] of them make [n] statistics refreshes,
    [n] frame waits, [n] frame pulls and [n] redraw requests, and no scene
    edit. *)
Theorem steady_frames :
  forall env context depsgraph w s fb p n,
    session (engine w) = Some s ->
    session_bool env s = true ->
    starting_session (engine w) = false ->
    framebuffer (engine w) = Some fb ->
    needs_replacement fb context (scene_eval depsgraph) = false ->
    camera_convert env (scene_eval depsgraph) context = Returns p ->
    str_props env p = last_cam_str w ->
    UpdateStats env s = Returns tt ->
    WaitNewFrame env s = Returns tt ->
    run_callbacks (repeat (ViewDraw env context depsgraph) n) w =
      (w, concat (repeat (steady_frame_calls s fb context (scene_eval depsgraph)) n)).
Proof.
  intros env context depsgraph w s0 fb0 p n Hs Hbool Hst Hfb Hfit Hcam Hsame Hstats Hwait.
  induction n as [|n IH].
  - reflexivity.
  - cbn [repeat run_callbacks run_callback concat].
    rewrite (steady_frame env context depsgraph w s0 fb0 p
               Hs Hbool Hst Hfb Hfit Hcam Hsame Hstats Hwait).
    rewrite IH. reflexivity.
Qed.

Lemma steady_frames_witness :
  run_callbacks (repeat (ViewDraw Samples.env_ok Samples.context0 Samples.depsgraph0) 2)
                Cases.steady =
    (Cases.steady,
     concat (repeat (steady_frame_calls Samples.session0
                       (FrameBuffer_init Samples.context0 Samples.scene0)
                       Samples.context0 Samples.scene0) 2)).
Proof.
  apply (steady_frames Samples.env_ok Samples.context0 Samples.depsgraph0 Cases.steady
           Samples.session0 (FrameBuffer_init Samples.context0 Samples.scene0)
           Samples.camera_A 2); reflexivity.
Defined.

(** X10. A redraw that raises shows nothing: no frame is pulled, nothing is
    drawn, and the next redraw is not asked for. *)
Theorem failed_redraw_presents_nothing :
  forall env context depsgraph w e,
    result (view_draw env context depsgraph w) = Raises e ->
    filter is_presentation (calls (view_draw env context depsgraph w)) = [].
Proof.
  intros env context depsgraph w e. open_world w.
  unfold result, calls. run_view_draw.
  repeat (next_case; step); intros Hraise; try discriminate Hraise; reflexivity.
Qed.

Lemma failed_redraw_presents_nothing_witness :
  filter is_presentation
    (calls (view_draw Samples.env_wait_fails Samples.context0 Samples.depsgraph0
              Samples.running)) = [].
Proof.
  apply (failed_redraw_presents_nothing Samples.env_wait_fails Samples.context0
           Samples.depsgraph0 Samples.running Samples.out_of_memory).
  reflexivity.
Defined.

(** X11. [view_draw] raises nothing of its own.  By the time it reaches for
    [engine.session] or [engine.framebuffer] they are objects, not [None]:
    an exception that leaves it is one that the camera export or a call on
    the session has raised. *)
Theorem view_draw_raises_only_what_it_is_handed :
  forall env context depsgraph w e,
    result (view_draw env context depsgraph w) = Raises e ->
    raised_by_collaborator env context (scene_eval depsgraph) e.
Proof.
  intros env context depsgraph w e. open_world w.
  unfold result, raised_by_collaborator. run_view_draw.
  repeat (next_case; step); intros Hraise; try discriminate Hraise;
    inversion Hraise; subst; clear Hraise;
    try (cbn in *; rewrite ?andb_false_r in *; discriminate);
    eauto 15.
Qed.

Lemma view_draw_raises_only_what_it_is_handed_witness :
  raised_by_collaborator Samples.env_edit_fails Samples.context0 Samples.scene0
                         Samples.out_of_memory.
Proof.
  apply (view_draw_raises_only_what_it_is_handed Samples.env_edit_fails Samples.context0
           Samples.depsgraph0 Samples.running Samples.out_of_memory).
  reflexivity.
Defined.

(** X12. A frame is only ever pulled into a buffer that fits the viewport of the
    redraw: the buffer that [update] is called on is the one [engine] holds
    afterwards, [needs_replacement] is false for it, and it is handed the
    session of the engine and the scene of the redraw. *)
Theorem frame_pulled_into_fitting_buffer :
  forall env context depsgraph w fb s scene,
    In (EFrameBufferUpdate fb s scene) (calls (view_draw env context depsgraph w)) ->
    needs_replacement fb context (scene_eval depsgraph) = false /\
    framebuffer (engine (final (view_draw env context depsgraph w))) = Some fb /\
    s = session (engine w) /\
    scene = scene_eval depsgraph.
Proof.
  intros env context depsgraph w fb0 s0 scene0. open_world w.
  unfold calls, final. run_view_draw.
  destruct fb as [f|]; cbn [wants_new_framebuffer].
  - destruct (needs_replacement f context (scene_eval depsgraph)) eqn:Hneeds; step;
      repeat (next_case; step); intros Hin; cbn [In] in Hin;
      repeat match goal with
             | H : _ \/ _ |- _ => destruct H as [H | H]
             end;
      try discriminate; try contradiction;
      inversion Hin; subst; repeat split; auto using needs_replacement_fresh.
  - step.
    repeat (next_case; step); intros Hin; cbn [In] in Hin;
      repeat match goal with
             | H : _ \/ _ |- _ => destruct H as [H | H]
             end;
      try discriminate; try contradiction;
      inversion Hin; subst; repeat split; auto using needs_replacement_fresh.
Qed.

Lemma frame_pulled_into_fitting_buffer_witness :
  needs_replacement (FrameBuffer_init Samples.context1 Samples.scene0)
                    Samples.context1 Samples.scene0 = false /\
  framebuffer (engine (final (view_draw Samples.env_ok Samples.context1 Samples.depsgraph0
                                Samples.running)))
    = Some (FrameBuffer_init Samples.context1 Samples.scene0).
Proof.
  pose proof (frame_pulled_into_fitting_buffer
                Samples.env_ok Samples.context1 Samples.depsgraph0 Samples.running
                (FrameBuffer_init Samples.context1 Samples.scene0)
                (Some Samples.session0) Samples.scene0) as H.
  destruct H as (H1 & H2 & _).
  - cbn. do 11 right. left. reflexivity.
  - split; [exact H1 | exact H2].
Defined.

(** X13. The camera cache and the scene edit go together.  [view_draw] changes
    [last_cam_str] only in a redraw that goes on to attempt the edit; and an
    edit is attempted only for a camera whose serialisation differs from the
    cache, which by then holds that serialisation. *)
Theorem camera_cache_changes_with_edit :
  forall env context depsgraph w,
    let r := view_draw env context depsgraph w in
    (last_cam_str (final r) <> last_cam_str w ->
     exists s, session (engine w) = Some s /\ In (EGetRenderConfig s) (calls r)) /\
    (forall s,
       In (EGetRenderConfig s) (calls r) ->
       exists p,
         camera_convert env (scene_eval depsgraph) context = Returns p /\
         str_props env p <> last_cam_str w /\
         last_cam_str (final r) = str_props env p).
Proof.
  intros env context depsgraph w r. subst r. open_world w.
  unfold calls, final. run_view_draw. split.
  - repeat (next_case; step); intros Hneq; try congruence;
      try (cbn [truthy_session andb] in *; discriminate);
      eexists; (split; [reflexivity|]); cbn [In]; auto 12.
  - intros s0.
    repeat (next_case; step); intros Hin; cbn [In] in Hin;
      repeat match goal with
             | H : _ \/ _ |- _ => destruct H as [H | H]
             end;
      try discriminate; try contradiction;
      try (cbn [truthy_session andb] in *; discriminate);
      eexists; (split; [reflexivity|]); (split; [|reflexivity]);
      match goal with
      | H : negb (String.eqb _ _) = true |- _ =>
          apply negb_true_iff in H; apply String.eqb_neq in H; exact H
      end.
Qed.

Lemma camera_cache_changes_with_edit_witness :
  exists s,
    session (engine Samples.running) = Some s /\
    In (EGetRenderConfig s)
       (calls (view_draw Samples.env_ok Samples.context0 Samples.depsgraph0
                 Samples.running)).
Proof.
  apply (proj1 (camera_cache_changes_with_edit Samples.env_ok Samples.context0
                  Samples.depsgraph0 Samples.running)).
  discriminate.
Defined.

(** * The sockets of the OpenVDB node *)

Module VDBNodeFacts.

Import OpenVDB VDBNode.

Lemma with_cells_cells :
  forall self, with_cells self (cells self) = self.
Proof.
  intros [n t d f p x y z]. reflexivity.
Qed.

(** What the loop of [update_file_path] leaves behind. *)
Lemma update_file_path_loop_final :
  forall env lib names d,
    let gs := readable lib (abspath env (file_path (props d))) names in
    snd (fst (update_file_path_loop env lib names d)) =
      mkNodeData (with_cells (props d) (cells_after lib gs (cells (props d))))
                 (outputs d ++ map output_for gs).
Proof.
  intros env lib names. induction names as [|n rest IH]; intros d; cbn zeta.
  - cbn. rewrite with_cells_cells, app_nil_r. destruct d; reflexivity.
  - cbn [update_file_path_loop readable].
    destruct (GetOpenVDBGridInfo lib (abspath env (file_path (props d))) n)
      as [[bbox gridtype]|e].
    + match goal with
      | |- context [update_file_path_loop env lib rest ?d1] =>
          specialize (IH d1); cbn zeta in IH;
          destruct (update_file_path_loop env lib rest d1) as [[r d2] l]
      end.
      cbn [fst snd] in *. rewrite IH.
      destruct d as [[nm tr dm fp pr x y z] outs]. cbn.
      rewrite <- app_assoc. reflexivity.
    + cbn. rewrite with_cells_cells, app_nil_r. destruct d; reflexivity.
Qed.

(** Whether the loop returns, and its calls: one per grid up to and
    including the first that cannot be read. *)
Lemma update_file_path_loop_result :
  forall env lib names d,
    let path := abspath env (file_path (props d)) in
    fst (fst (update_file_path_loop env lib names d)) =
      match nth_error names (length (readable lib path names)) with
      | None => Returns tt
      | Some bad =>
          match GetOpenVDBGridInfo lib path bad with
          | Raises e => Raises e
          | Returns _ => Returns tt
          end
      end /\
    snd (update_file_path_loop env lib names d) =
      map (CGridInfo path) (firstn (S (length (readable lib path names))) names).
Proof.
  intros env lib names. induction names as [|n rest IH]; intros d; cbn zeta.
  - split; reflexivity.
  - cbn [update_file_path_loop readable].
    destruct (GetOpenVDBGridInfo lib (abspath env (file_path (props d))) n)
      as [[bbox gridtype]|e] eqn:Hinfo.
    + match goal with
      | |- context [update_file_path_loop env lib rest ?d1] =>
          specialize (IH d1); cbn zeta in IH;
          destruct (update_file_path_loop env lib rest d1) as [[r d2] l]
      end.
      cbn [fst snd props file_path set_nx set_ny set_nz outputs_new] in *.
      destruct IH as [IHr IHl]. cbn [length nth_error firstn map].
      split; [exact IHr | now rewrite IHl].
    + cbn [length nth_error fst snd]. rewrite Hinfo. split; reflexivity.
Qed.

Lemma readable_sound :
  forall lib path names g,
    In g (readable lib path names) ->
    In (fst (fst g)) names /\
    GetOpenVDBGridInfo lib path (fst (fst g)) = Returns (snd (fst g), snd g).
Proof.
  intros lib path names. induction names as [|n rest IH]; intros g Hin.
  - contradiction.
  - cbn [readable] in Hin.
    destruct (GetOpenVDBGridInfo lib path n) as [[bbox gridtype]|e] eqn:Hinfo;
      [|contradiction].
    destruct Hin as [<- | Hin].
    + split; [now left | exact Hinfo].
    + destruct (IH g Hin) as [H1 H2]. split; [now right | exact H2].
Qed.

Lemma readable_all :
  forall lib path names,
    (forall n, In n names -> exists b t, GetOpenVDBGridInfo lib path n = Returns (b, t)) ->
    map (fun g => fst (fst g)) (readable lib path names) = names.
Proof.
  intros lib path names. induction names as [|n rest IH]; intros Hall.
  - reflexivity.
  - cbn [readable]. destruct (Hall n (or_introl eq_refl)) as (b & t & Hinfo).
    rewrite Hinfo. cbn [map fst]. f_equal. apply IH.
    intros m Hm. apply Hall. now right.
Qed.

Lemma readable_app :
  forall lib path front back,
    (forall n, In n front -> exists b t, GetOpenVDBGridInfo lib path n = Returns (b, t)) ->
    readable lib path (front ++ back) = readable lib path front ++ readable lib path back.
Proof.
  intros lib path front back. induction front as [|n rest IH]; intros Hall.
  - reflexivity.
  - cbn [readable app]. destruct (Hall n (or_introl eq_refl)) as (b & t & Hinfo).
    rewrite Hinfo. cbn [app]. f_equal. apply IH. intros m Hm. apply Hall. now right.
Qed.

Lemma with_cells_settings :
  forall self c, same_settings self (with_cells self c).
Proof.
  intros self c. unfold same_settings, with_cells. cbn. tauto.
Qed.

Lemma cells_after_last :
  forall lib gs g c,
    cells_after lib (gs ++ [g]) c = kept_cells lib (extent (snd (fst g))).
Proof.
  intros lib gs g c. unfold cells_after. rewrite fold_left_app. reflexivity.
Qed.

Lemma cells_after_idempotent :
  forall lib gs c, cells_after lib gs (cells_after lib gs c) = cells_after lib gs c.
Proof.
  intros lib gs c. destruct gs as [|g0 gs'].
  - reflexivity.
  - assert (Hne : g0 :: gs' <> []) by discriminate.
    destruct (exists_last Hne) as (front & g & ->).
    rewrite !cells_after_last. reflexivity.
Qed.

(** [update_file_path] on a path that is not empty and whose grid names can
    be read. *)
Lemma update_file_path_run :
  forall env lib d names,
    file_path (props d) <> "" ->
    let path := abspath env (file_path (props d)) in
    GetOpenVDBGridNames lib path = Returns names ->
    let gs := readable lib path names in
    snd (fst (update_file_path env lib d)) =
      mkNodeData (with_cells (props d) (cells_after lib gs (cells (props d))))
                 (map output_for gs) /\
    fst (fst (update_file_path env lib d)) =
      match nth_error names (length gs) with
      | None => Returns tt
      | Some bad =>
          match GetOpenVDBGridInfo lib path bad with
          | Raises e => Raises e
          | Returns _ => Returns tt
          end
      end /\
    snd (update_file_path env lib d) =
      CGridNames path :: map (CGridInfo path) (firstn (S (length gs)) names).
Proof.
  intros env lib d names Hpath path Hnames gs.
  apply String.eqb_neq in Hpath.
  unfold update_file_path, outputs_clear. rewrite Hpath. cbn [negb props].
  fold path. rewrite Hnames.
  pose proof (update_file_path_loop_final env lib names (mkNodeData (props d) [])) as Hfinal.
  pose proof (update_file_path_loop_result env lib names (mkNodeData (props d) [])) as Hres.
  cbn zeta in Hfinal, Hres. cbn [props outputs] in Hfinal, Hres.
  fold path in Hfinal, Hres. fold gs in Hfinal, Hres.
  destruct (update_file_path_loop env lib names (mkNodeData (props d) [])) as [[r d'] l].
  cbn [fst snd] in *. destruct Hres as [Hr Hl].
  rewrite Hfinal, Hr, Hl. cbn [app]. repeat split.
Qed.

(** X14. When every grid of the file can be read, [update_file_path] replaces the
    node's sockets by one socket per grid, in the order of the file, named
    after the grid, enabled, of the float class for a grid of type [float]
    and of the colour class for every other type. *)
Theorem update_file_path_one_socket_per_grid :
  forall env lib d names,
    file_path (props d) <> "" ->
    let path := abspath env (file_path (props d)) in
    GetOpenVDBGridNames lib path = Returns names ->
    (forall n, In n names -> exists b t, GetOpenVDBGridInfo lib path n = Returns (b, t)) ->
    let r := update_file_path env lib d in
    fst (fst r) = Returns tt /\
    map (fun o => socket_name (socket o)) (outputs (snd (fst r))) = names /\
    Forall (fun o =>
              enabled o = true /\
              exists b t,
                GetOpenVDBGridInfo lib path (socket_name (socket o)) = Returns (b, t) /\
                bl_idname o = (if String.eqb t "float"
                               then "LuxCoreSocketFloatPositive"
                               else "LuxCoreSocketColor"))
           (outputs (snd (fst r))) /\
    snd r = CGridNames path :: map (CGridInfo path) names.
Proof.
  intros env lib d names Hpath path Hnames Hall r. subst r.
  destruct (update_file_path_run env lib d names Hpath Hnames) as (Hd & Hr & Hl).
  fold path in Hd, Hr, Hl.
  pose proof (readable_all lib path names Hall) as Hmap.
  assert (Hlen : length (readable lib path names) = length names).
  { rewrite <- Hmap at 2. now rewrite length_map. }
  rewrite Hd, Hr, Hl, Hlen. cbn [outputs].
  repeat split.
  - replace (nth_error names (length names)) with (@None string); [reflexivity|].
    symmetry. apply nth_error_None. apply Nat.le_refl.
  - rewrite map_map. cbn [output_for socket socket_name]. exact Hmap.
  - apply Forall_forall. intros o Ho. apply in_map_iff in Ho as (g & <- & Hg).
    destruct (readable_sound lib path names g Hg) as [_ Hinfo].
    split; [reflexivity|].
    exists (snd (fst g)), (snd g). split; [exact Hinfo | reflexivity].
  - rewrite firstn_all2 by (apply Nat.le_succ_diag_r). reflexivity.
Qed.

Lemma update_file_path_one_socket_per_grid_witness :
  map (fun o => socket_name (socket o))
      (outputs (snd (fst (update_file_path Samples.node_env Cases.smoke_lib Cases.vdb_node))))
    = ["density"; "velocity"].
Proof.
  refine (proj1 (proj2 (update_file_path_one_socket_per_grid
                          Samples.node_env Cases.smoke_lib Cases.vdb_node
                          ["density"; "velocity"] _ eq_refl _))).
  - discriminate.
  - intros n [<- | [<- | []]]; do 2 eexists; reflexivity.
Defined.

Lemma int_property_abs :
  forall lib v,
    int_property lib (Z.abs v) =
      if Z.abs v <=? 2147483647 then Z.abs v else IntProperty_keeps lib (Z.abs v).
Proof.
  intros lib v. unfold int_property, in_int_range.
  assert (Hlow : (int_min <=? Z.abs v) = true).
  { apply Z.leb_le. apply Z.le_trans with 0; [discriminate | apply Z.abs_nonneg]. }
  rewrite Hlow. reflexivity.
Qed.

(** X15. The cell counts are overwritten grid by grid: when every grid can be
    read, [nx], [ny] and [nz] end up as what the properties hold of the
    extents of the bounding box of the last grid of the file, whatever the
    earlier grids measure.  An extent that fits the 32 bits of the property is
    held as it is, and is not negative; of one that does not fit, the property
    holds what the host makes of it. *)
Theorem update_file_path_cells_of_last_grid :
  forall env lib d front last b t,
    file_path (props d) <> "" ->
    let path := abspath env (file_path (props d)) in
    GetOpenVDBGridNames lib path = Returns (front ++ [last]) ->
    (forall n, In n front -> exists b t, GetOpenVDBGridInfo lib path n = Returns (b, t)) ->
    GetOpenVDBGridInfo lib path last = Returns (b, t) ->
    let d' := snd (fst (update_file_path env lib d)) in
    let dx := Z.abs (fst (fst (corner0 b)) - fst (fst (corner1 b))) in
    let dy := Z.abs (snd (fst (corner0 b)) - snd (fst (corner1 b))) in
    let dz := Z.abs (snd (corner0 b) - snd (corner1 b)) in
    nx (props d') = (if dx <=? 2147483647 then dx else IntProperty_keeps lib dx) /\
    ny (props d') = (if dy <=? 2147483647 then dy else IntProperty_keeps lib dy) /\
    nz (props d') = (if dz <=? 2147483647 then dz else IntProperty_keeps lib dz) /\
    (dx <= 2147483647 -> nx (props d') = dx /\ 0 <= nx (props d')) /\
    (dy <= 2147483647 -> ny (props d') = dy /\ 0 <= ny (props d')) /\
    (dz <= 2147483647 -> nz (props d') = dz /\ 0 <= nz (props d')).
Proof.
  intros env lib d front last b t Hpath path Hnames Hfront Hlast d' dx dy dz.
  assert (Hcells : nx (props d') = int_property lib dx /\
                   ny (props d') = int_property lib dy /\
                   nz (props d') = int_property lib dz).
  { subst d'.
    destruct (update_file_path_run env lib d (front ++ [last]) Hpath Hnames) as (Hd & _).
    fold path in Hd. rewrite Hd. cbn [props].
    rewrite (readable_app lib path front [last] Hfront).
    cbn [readable]. rewrite Hlast. rewrite cells_after_last.
    unfold with_cells, kept_cells, extent. cbn [nx ny nz fst snd].
    repeat split. }
  destruct Hcells as (Hx & Hy & Hz).
  unfold dx, dy, dz in *. rewrite int_property_abs in Hx, Hy, Hz.
  repeat split; try assumption.
  - apply Z.leb_le in H. rewrite H in Hx. exact Hx.
  - apply Z.leb_le in H. rewrite H in Hx. rewrite Hx. apply Z.abs_nonneg.
  - apply Z.leb_le in H. rewrite H in Hy. exact Hy.
  - apply Z.leb_le in H. rewrite H in Hy. rewrite Hy. apply Z.abs_nonneg.
  - apply Z.leb_le in H. rewrite H in Hz. exact Hz.
  - apply Z.leb_le in H. rewrite H in Hz. rewrite Hz. apply Z.abs_nonneg.
Qed.

Lemma update_file_path_cells_of_last_grid_witness :
  nx (props (snd (fst (update_file_path Samples.node_env Cases.smoke_lib Cases.vdb_node))))
    = 16 /\
  ny (props (snd (fst (update_file_path Samples.node_env Cases.smoke_lib Cases.vdb_node))))
    = 100 /\
  nz (props (snd (fst (update_file_path Samples.node_env Cases.smoke_lib Cases.vdb_node))))
    = 4.
Proof.
  pose proof (update_file_path_cells_of_last_grid
                Samples.node_env Cases.smoke_lib Cases.vdb_node
                ["density"] "velocity"
                (mkBBox (-8, 0, 4) (8, 100, 0)) "vec3s") as H.
  destruct H as (_ & _ & _ & Hx & Hy & Hz).
  - discriminate.
  - reflexivity.
  - intros n [<- | []]. do 2 eexists. reflexivity.
  - reflexivity.
  - split; [apply Hx; discriminate | split; [apply Hy; discriminate | apply Hz; discriminate]].
Defined.

Lemma cells_with_cells :
  forall self c, cells (with_cells self c) = c.
Proof.
  intros self [[x y] z]. reflexivity.
Qed.

Lemma with_cells_twice :
  forall self c c', with_cells (with_cells self c) c' = with_cells self c'.
Proof.
  reflexivity.
Qed.

Lemma update_file_path_names_fail :
  forall env lib d e,
    file_path (props d) <> "" ->
    GetOpenVDBGridNames lib (abspath env (file_path (props d))) = Raises e ->
    update_file_path env lib d =
      (Raises e, mkNodeData (props d) [], [CGridNames (abspath env (file_path (props d)))]).
Proof.
  intros env lib d e Hpath Hnames. apply String.eqb_neq in Hpath.
  unfold update_file_path, outputs_clear. rewrite Hpath. cbn [negb props].
  rewrite Hnames. reflexivity.
Qed.

(** X16. The old sockets are removed before the file is looked at, and nothing
    puts them back.  If the grid names cannot be read, the node is left with
    no output socket at all; if a grid cannot be read, it is left with the
    sockets of the grids before it, and the grids after it are not asked
    for.  In both cases the exception leaves [update_file_path]. *)
Theorem update_file_path_failure_loses_sockets :
  forall env lib d e,
    file_path (props d) <> "" ->
    let path := abspath env (file_path (props d)) in
    let r := update_file_path env lib d in
    (GetOpenVDBGridNames lib path = Raises e ->
     r = (Raises e, mkNodeData (props d) [], [CGridNames path])) /\
    (forall ok bad rest,
       GetOpenVDBGridNames lib path = Returns (ok ++ bad :: rest) ->
       (forall n, In n ok -> exists b t, GetOpenVDBGridInfo lib path n = Returns (b, t)) ->
       GetOpenVDBGridInfo lib path bad = Raises e ->
       fst (fst r) = Raises e /\
       map (fun o => socket_name (socket o)) (outputs (snd (fst r))) = ok /\
       snd r = CGridNames path :: map (CGridInfo path) (ok ++ [bad])).
Proof.
  intros env lib d e Hpath path r. subst r. split.
  - intros Hnames. now apply update_file_path_names_fail.
  - intros ok bad rest Hnames Hok Hbad.
    destruct (update_file_path_run env lib d (ok ++ bad :: rest) Hpath Hnames)
      as (Hd & Hr & Hl).
    fold path in Hd, Hr, Hl.
    assert (Hgs : readable lib path (ok ++ bad :: rest) = readable lib path ok).
    { rewrite (readable_app lib path ok (bad :: rest) Hok).
      cbn [readable]. rewrite Hbad. apply app_nil_r. }
    pose proof (readable_all lib path ok Hok) as Hmap.
    assert (Hlen : length (readable lib path ok) = length ok).
    { rewrite <- Hmap at 2. now rewrite length_map. }
    rewrite Hgs, Hlen in *. rewrite Hd, Hr, Hl. cbn [outputs].
    repeat split.
    + rewrite nth_error_app2 by apply Nat.le_refl.
      rewrite Nat.sub_diag. cbn [nth_error]. now rewrite Hbad.
    + rewrite map_map. exact Hmap.
    + do 2 f_equal.
      replace (S (length ok)) with (length (ok ++ [bad])) by (rewrite length_app, Nat.add_comm; reflexivity).
      change (ok ++ bad :: rest) with (ok ++ [bad] ++ rest). rewrite app_assoc.
      rewrite firstn_app, firstn_all, Nat.sub_diag. cbn [firstn]. apply app_nil_r.
Qed.

Lemma update_file_path_failure_loses_sockets_witness :
  fst (fst (update_file_path Samples.node_env Cases.broken_lib Cases.vdb_node))
    = Raises Samples.out_of_memory /\
  map (fun o => socket_name (socket o))
      (outputs (snd (fst (update_file_path Samples.node_env Cases.broken_lib Cases.vdb_node))))
    = ["density"].
Proof.
  pose proof (proj2 (update_file_path_failure_loses_sockets
                       Samples.node_env Cases.broken_lib Cases.vdb_node
                       Samples.out_of_memory ltac:(discriminate))
                ["density"] "velocity" []) as H.
  destruct H as (Hr & Hs & _).
  - reflexivity.
  - intros n [<- | []]. do 2 eexists. reflexivity.
  - reflexivity.
  - split; [exact Hr | exact Hs].
Defined.

(** X17. Running [update_file_path] again on the node it has produced changes
    nothing more, as long as the file reads the same: sockets and cell counts
    depend on the file alone, not on what the node held before. *)
Theorem update_file_path_idempotent :
  forall env lib d,
    snd (fst (update_file_path env lib (snd (fst (update_file_path env lib d)))))
    = snd (fst (update_file_path env lib d)).
Proof.
  intros env lib d.
  destruct (String.eqb (file_path (props d)) "") eqn:Hempty.
  - unfold update_file_path at 2. rewrite Hempty. cbn [negb fst snd].
    unfold update_file_path. rewrite Hempty. reflexivity.
  - apply String.eqb_neq in Hempty.
    destruct (GetOpenVDBGridNames lib (abspath env (file_path (props d))))
      as [names|e] eqn:Hnames.
    + destruct (update_file_path_run env lib d names Hempty Hnames) as (Hd & _).
      rewrite Hd.
      match goal with
      | |- context [update_file_path env lib ?d1] =>
          destruct (update_file_path_run env lib d1 names) as (Hd1 & _);
          [ exact Hempty | exact Hnames | rewrite Hd1 ]
      end.
      cbn [props].
      rewrite with_cells_twice, cells_with_cells, cells_after_idempotent. reflexivity.
    + rewrite (update_file_path_names_fail env lib d e Hempty Hnames). cbn [fst snd].
      rewrite (update_file_path_names_fail env lib (mkNodeData (props d) []) e Hempty Hnames).
      reflexivity.
Qed.

(** What the loop of [init] leaves behind: the properties as they were, and
    new sockets after the old ones. *)
Lemma init_loop_props :
  forall env lib names d,
    props (snd (fst (init_loop env lib names d))) = props d.
Proof.
  intros env lib names. induction names as [|n rest IH]; intros d.
  - reflexivity.
  - cbn [init_loop].
    destruct (GetOpenVDBGridInfo_into lib (abspath env (file_path (props d))) n)
      as [[|gridtype0 more]|e]; try reflexivity.
    match goal with
    | |- context [init_loop env lib rest ?d1] =>
        specialize (IH d1); destruct (init_loop env lib rest d1) as [[r d2] l]
    end.
    cbn [fst snd] in *. rewrite IH. reflexivity.
Qed.

Lemma init_loop_agrees :
  forall env lib names d,
    (forall n, In n names ->
       exists b t more,
         GetOpenVDBGridInfo lib (abspath env (file_path (props d))) n = Returns (b, t) /\
         GetOpenVDBGridInfo_into lib (abspath env (file_path (props d))) n
           = Returns (t :: more)) ->
    fst (fst (init_loop env lib names d)) = Returns tt /\
    outputs (snd (fst (init_loop env lib names d))) =
      outputs d ++ map output_for (readable lib (abspath env (file_path (props d))) names).
Proof.
  intros env lib names. induction names as [|n rest IH]; intros d Hall.
  - cbn. now rewrite app_nil_r.
  - cbn [init_loop readable].
    destruct (Hall n (or_introl eq_refl)) as (b & t & more & Hinfo & Hinto).
    rewrite Hinfo, Hinto.
    match goal with
    | |- context [init_loop env lib rest ?d1] =>
        specialize (IH d1); destruct (init_loop env lib rest d1) as [[r d2] l]
    end.
    cbn [fst snd props outputs outputs_new] in *.
    destruct IH as [IHr IHo].
    { intros m Hm. apply Hall. now right. }
    split; [exact IHr|]. rewrite IHo. cbn [map output_for fst snd].
    now rewrite <- app_assoc.
Qed.

(** X18. [init] builds the sockets that [update_file_path] builds, provided the
    two ways of calling [GetOpenVDBGridInfo] tell the same grid type; but it
    leaves the cell counts alone, so a node set up by [init] keeps the
    [nx], [ny], [nz] it had until the path is edited. *)
Theorem init_builds_the_same_sockets :
  forall env lib d names,
    file_path (props d) <> "" ->
    let path := abspath env (file_path (props d)) in
    GetOpenVDBGridNames lib path = Returns names ->
    (forall n, In n names ->
       exists b t more,
         GetOpenVDBGridInfo lib path n = Returns (b, t) /\
         GetOpenVDBGridInfo_into lib path n = Returns (t :: more)) ->
    fst (fst (init env lib d)) = Returns tt /\
    outputs (snd (fst (init env lib d)))
      = outputs (snd (fst (update_file_path env lib d))) /\
    props (snd (fst (init env lib d))) = props d.
Proof.
  intros env lib d names Hpath path Hnames Hall.
  destruct (update_file_path_run env lib d names Hpath Hnames) as (Hd & _).
  fold path in Hd. rewrite Hd. cbn [outputs].
  apply String.eqb_neq in Hpath.
  unfold init, outputs_clear. rewrite Hpath. cbn [negb props]. fold path. rewrite Hnames.
  pose proof (init_loop_agrees env lib names (mkNodeData (props d) [])) as Hloop.
  pose proof (init_loop_props env lib names (mkNodeData (props d) [])) as Hprops.
  cbn [props outputs] in Hloop, Hprops. fold path in Hloop.
  destruct (init_loop env lib names (mkNodeData (props d) [])) as [[r d'] l].
  cbn [fst snd] in *. destruct (Hloop Hall) as [Hr Ho].
  repeat split; assumption.
Qed.

Lemma init_builds_the_same_sockets_witness :
  outputs (snd (fst (init Samples.node_env Cases.smoke_lib Cases.vdb_node)))
    = outputs (snd (fst (update_file_path Samples.node_env Cases.smoke_lib Cases.vdb_node))) /\
  props (snd (fst (init Samples.node_env Cases.smoke_lib Cases.vdb_node)))
    = props Cases.vdb_node.
Proof.
  refine (proj2 (init_builds_the_same_sockets Samples.node_env Cases.smoke_lib
                   Cases.vdb_node ["density"; "velocity"] _ eq_refl _)).
  - discriminate.
  - intros n [<- | [<- | []]]; do 3 eexists; split; reflexivity.
Defined.

(** X19. Neither [update_file_path] nor [init] ever changes the node's name, its
    tree, its domain, its file path or its precision; [init] changes no
    property at all; and with an empty file path both leave the node as it
    is, sockets included, without a call to the library. *)
Theorem node_callbacks_keep_settings :
  forall env lib d,
    same_settings (props d) (props (snd (fst (update_file_path env lib d)))) /\
    props (snd (fst (init env lib d))) = props d /\
    (file_path (props d) = "" ->
     update_file_path env lib d = (Returns tt, d, []) /\
     init env lib d = (Returns tt, d, [])).
Proof.
  intros env lib d. split; [|split].
  - destruct (String.eqb (file_path (props d)) "") eqn:Hempty.
    + unfold update_file_path. rewrite Hempty. cbn. unfold same_settings. tauto.
    + apply String.eqb_neq in Hempty.
      destruct (GetOpenVDBGridNames lib (abspath env (file_path (props d))))
        as [names|e] eqn:Hnames.
      * destruct (update_file_path_run env lib d names Hempty Hnames) as (Hd & _).
        rewrite Hd. apply with_cells_settings.
      * rewrite (update_file_path_names_fail env lib d e Hempty Hnames).
        cbn. unfold same_settings. tauto.
  - unfold init, outputs_clear.
    destruct (negb (String.eqb (file_path (props d)) "")); [|reflexivity].
    cbn [props].
    destruct (GetOpenVDBGridNames lib (abspath env (file_path (props d)))) as [names|e];
      [|reflexivity].
    pose proof (init_loop_props env lib names (mkNodeData (props d) [])) as Hprops.
    destruct (init_loop env lib names (mkNodeData (props d) [])) as [[r d'] l].
    exact Hprops.
  - intros Hempty. unfold update_file_path, init. rewrite Hempty. split; reflexivity.
Qed.

Lemma node_callbacks_keep_settings_witness :
  update_file_path Samples.node_env Cases.smoke_lib
    (mkNodeData Cases.pathless_node (outputs Cases.vdb_node))
  = (Returns tt, mkNodeData Cases.pathless_node (outputs Cases.vdb_node), []).
Proof.
  apply (proj2 (proj2 (node_callbacks_keep_settings Samples.node_env Cases.smoke_lib
                         (mkNodeData Cases.pathless_node (outputs Cases.vdb_node))))
           eq_refl).
Defined.

(** ** Exporting the node *)

(** X20. [create_props] is the last thing [sub_export] does, at most once, with
    the [props] and the name it was given, and what it returns is what
    [sub_export] returns.  What it is handed is one of two dicts: constant
    black when there is no domain or no file path, and otherwise the density
    grid, built from the evaluated domain and from the name of the output
    socket, which has to be there. *)
Theorem sub_export_hands_over_one_of_two :
  forall env self x depsgraph props luxcore_name output_socket p defs n,
    In (ECreateProps p defs n)
       (snd (sub_export env self x depsgraph props luxcore_name output_socket)) ->
    p = props /\ n = luxcore_name /\
    fst (sub_export env self x depsgraph props luxcore_name output_socket)
      = create_props env props defs luxcore_name /\
    (exists pre,
        snd (sub_export env self x depsgraph props luxcore_name output_socket)
          = pre ++ [ECreateProps p defs n] /\
        forall p' defs' n', ~ In (ECreateProps p' defs' n') pre) /\
    (((domain self = None \/ file_path self = "") /\ defs = constant_black) \/
     (exists o dom m sock,
         domain self = Some o /\ file_path self <> "" /\
         output_socket = Some sock /\
         evaluated_get env o depsgraph = Returns dom /\
         matrix_transformation env dom x = Returns m /\
         defs = density_grid env self (socket_name sock) m)).
Proof.
  intros env self x0 depsgraph props0 luxcore_name output_socket p defs n.
  unfold sub_export, no_domain.
  destruct (domain self) as [o|] eqn:Hdom; cbn [orb].
  - destruct (String.eqb (file_path self) "") eqn:Hpath.
    + apply String.eqb_eq in Hpath. unfold nbind, ncall.
      destruct (create_props env props0 constant_black luxcore_name) eqn:Hcreate;
        cbn [fst snd app In]; intros [Hin | [Hin | []]]; try discriminate;
        inversion Hin; subst; repeat split; auto;
        try (exists [EAddWarning (warning_message self "No Domain object selected.")];
             split; [reflexivity | intros p' defs' n' [H | []]; discriminate]).
    + apply String.eqb_neq in Hpath. unfold nbind, ncall, nret.
      destruct (evaluated_get env o depsgraph) as [dom|e] eqn:Heval;
        [|cbn; intros [H | []]; discriminate].
      destruct (matrix_transformation env dom x0) as [m|e] eqn:Hmatrix;
        [|cbn; intros [H | [H | []]]; discriminate].
      destruct output_socket as [sock|];
        [|cbn; intros [H | [H | []]]; discriminate].
      destruct (create_props env props0 (density_grid env self (socket_name sock) m)
                             luxcore_name) eqn:Hcreate;
        cbn [fst snd app In]; intros [Hin | [Hin | [Hin | []]]]; try discriminate;
        inversion Hin; subst; repeat split; auto;
        try (exists [EEvaluatedGet o depsgraph; EMatrixToList dom x0];
             split; [reflexivity | intros p' defs' n' [H | [H | []]]; discriminate]);
        right; exists o, dom, m, sock; repeat split; auto.
  - unfold nbind, ncall.
    destruct (create_props env props0 constant_black luxcore_name) eqn:Hcreate;
      cbn [fst snd app In]; intros [Hin | [Hin | []]]; try discriminate;
      inversion Hin; subst; repeat split; auto;
      try (exists [EAddWarning (warning_message self "No Domain object selected.")];
           split; [reflexivity | intros p' defs' n' [H | []]; discriminate]).
Qed.

Lemma sub_export_hands_over_one_of_two_witness :
  fst (sub_export Samples.node_env (props Cases.vdb_node) Samples.exporter0
                  Samples.depsgraph0 (PropsRef 0) (Some "smoke")
                  (Some (mkSocket "density")))
  = create_props Samples.node_env (PropsRef 0)
      (density_grid Samples.node_env (props Cases.vdb_node) "density" (MatrixListRef 0))
      (Some "smoke").
Proof.
  refine (proj1 (proj2 (proj2 (sub_export_hands_over_one_of_two
            Samples.node_env (props Cases.vdb_node) Samples.exporter0
            Samples.depsgraph0 (PropsRef 0) (Some "smoke") (Some (mkSocket "density"))
            (PropsRef 0)
            (density_grid Samples.node_env (props Cases.vdb_node) "density"
                          (MatrixListRef 0))
            (Some "smoke") _)))).
  cbn. auto.
Defined.

(** X21. [output_socket] defaults to [None], and the density grid needs its
    name.  On a node with a domain and a file path, [sub_export] without an
    output socket always raises, whatever the collaborators do; nothing is
    handed to [create_props] and no warning is logged.  When the domain can be
    evaluated and the transformation computed, what it raises is the
    [AttributeError] of [None.name]. *)
Theorem sub_export_needs_output_socket :
  forall env self x depsgraph props luxcore_name o,
    domain self = Some o ->
    file_path self <> "" ->
    let r := sub_export env self x depsgraph props luxcore_name None in
    (exists e, fst r = Raises e) /\
    (forall p defs n, ~ In (ECreateProps p defs n) (snd r)) /\
    (forall msg, ~ In (EAddWarning msg) (snd r)) /\
    (forall dom m,
       evaluated_get env o depsgraph = Returns dom ->
       matrix_transformation env dom x = Returns m ->
       fst r = Raises (none_has_no_attribute "name")).
Proof.
  intros env self x0 depsgraph props0 luxcore_name o Hdom Hpath r. subst r.
  apply String.eqb_neq in Hpath.
  unfold sub_export, no_domain. rewrite Hdom, Hpath. cbn [orb].
  unfold nbind, ncall, nret.
  destruct (evaluated_get env o depsgraph) as [dom|e] eqn:Heval.
  - destruct (matrix_transformation env dom x0) as [m|e] eqn:Hmatrix; cbn [fst snd app].
    + repeat split.
      * eexists. reflexivity.
      * intros p defs n [H | [H | []]]; discriminate.
      * intros msg [H | [H | []]]; discriminate.
    + repeat split.
      * eexists. reflexivity.
      * intros p defs n [H | [H | []]]; discriminate.
      * intros msg [H | [H | []]]; discriminate.
      * intros dom' m' Hd Hm. inversion Hd; subst. congruence.
  - cbn [fst snd]. repeat split.
    + eexists. reflexivity.
    + intros p defs n [H | []]; discriminate.
    + intros msg [H | []]; discriminate.
    + intros dom m Hd. discriminate Hd.
Qed.

Lemma sub_export_needs_output_socket_witness :
  fst (sub_export Samples.node_env (props Cases.vdb_node) Samples.exporter0
                  Samples.depsgraph0 (PropsRef 0) (Some "smoke") None)
  = Raises (none_has_no_attribute "name").
Proof.
  refine (proj2 (proj2 (proj2 (sub_export_needs_output_socket
            Samples.node_env (props Cases.vdb_node) Samples.exporter0
            Samples.depsgraph0 (PropsRef 0) (Some "smoke") Cases.domain0
            eq_refl _))) Cases.domain0 (MatrixListRef 0) eq_refl eq_refl).
  discriminate.
Defined.

(** X22. From the file to the export.  A socket that [update_file_path] has made,
    handed back to [sub_export] as the output socket, exports a density grid
    that names a grid of the file, read from the path the grid names were
    read from, with the cell counts [update_file_path] has stored. *)
Theorem socket_of_file_exports_grid_of_file :
  forall env lib d names o obj dom m x depsgraph props0 luxcore_name,
    file_path (props d) <> "" ->
    let path := abspath env (file_path (props d)) in
    GetOpenVDBGridNames lib path = Returns names ->
    (forall n, In n names -> exists b t, GetOpenVDBGridInfo lib path n = Returns (b, t)) ->
    let d' := snd (fst (update_file_path env lib d)) in
    In o (outputs d') ->
    domain (props d) = Some obj ->
    evaluated_get env obj depsgraph = Returns dom ->
    matrix_transformation env dom x = Returns m ->
    exists defs,
      sub_export env (props d') x depsgraph props0 luxcore_name (Some (socket o)) =
        (create_props env props0 defs luxcore_name,
         [EEvaluatedGet obj depsgraph; EMatrixToList dom x;
          ECreateProps props0 defs luxcore_name]) /\
      lookup "type" defs = Some (VStr "densitygrid") /\
      lookup "openvdb.file" defs = Some (VStr path) /\
      lookup "openvdb.grid" defs = Some (VStr (socket_name (socket o))) /\
      In (socket_name (socket o)) names /\
      lookup "nx" defs = Some (VInt (nx (props d'))) /\
      lookup "ny" defs = Some (VInt (ny (props d'))) /\
      lookup "nz" defs = Some (VInt (nz (props d'))).
Proof.
  intros env lib d names o obj dom m x0 depsgraph props0 luxcore_name
         Hpath path Hnames Hall d' Ho Hdom Heval Hmatrix.
  destruct (update_file_path_run env lib d names Hpath Hnames) as (Hd & _).
  fold path in Hd. fold d' in Hd.
  assert (Hname : In (socket_name (socket o)) names).
  { rewrite Hd in Ho. cbn [outputs] in Ho. apply in_map_iff in Ho as (g & <- & Hg).
    apply (readable_sound lib path names g Hg). }
  assert (Hsettings : same_settings (props d) (props d')).
  { rewrite Hd. apply with_cells_settings. }
  destruct Hsettings as (_ & _ & Hdom' & Hpath' & _).
  exists (density_grid env (props d') (socket_name (socket o)) m).
  split.
  - unfold sub_export, no_domain. rewrite <- Hdom', Hdom, <- Hpath'.
    apply String.eqb_neq in Hpath. rewrite Hpath. cbn [orb].
    unfold nbind, ncall, nret. rewrite Heval, Hmatrix.
    destruct (create_props env props0
                (density_grid env (props d') (socket_name (socket o)) m) luxcore_name);
      reflexivity.
  - unfold density_grid. cbn [lookup String.eqb Ascii.eqb Bool.eqb].
    rewrite <- Hpath'. fold path. repeat split; auto.
Qed.

Lemma socket_of_file_exports_grid_of_file_witness :
  exists defs,
    sub_export Samples.node_env
               (props (snd (fst (update_file_path Samples.node_env Cases.smoke_lib
                                   Cases.vdb_node))))
               Samples.exporter0 Samples.depsgraph0 (PropsRef 0) (Some "smoke")
               (Some (mkSocket "velocity")) =
      (create_props Samples.node_env (PropsRef 0) defs (Some "smoke"),
       [EEvaluatedGet Cases.domain0 Samples.depsgraph0;
        EMatrixToList Cases.domain0 Samples.exporter0;
        ECreateProps (PropsRef 0) defs (Some "smoke")]) /\
    lookup "openvdb.grid" defs = Some (VStr "velocity") /\
    lookup "nx" defs = Some (VInt 16).
Proof.
  destruct (socket_of_file_exports_grid_of_file
              Samples.node_env Cases.smoke_lib Cases.vdb_node ["density"; "velocity"]
              (mkOutput "LuxCoreSocketColor" (mkSocket "velocity") true)
              Cases.domain0 Cases.domain0 (MatrixListRef 0)
              Samples.exporter0 Samples.depsgraph0 (PropsRef 0) (Some "smoke"))
    as (defs & Hrun & _ & _ & Hgrid & _ & Hnx & _).
  - discriminate.
  - reflexivity.
  - intros n [<- | [<- | []]]; do 2 eexists; reflexivity.
  - cbn. auto.
  - reflexivity.
  - reflexivity.
  - reflexivity.
  - exists defs. split; [exact Hrun | split; [exact Hgrid | exact Hnx]].
Defined.

(** ** The panel *)

Ltac rows_in H :=
  repeat (destruct H as [H | H]; try discriminate H); try contradiction.

(** X23. The panel always starts with the domain row and always has a
    [frame_start] and a [frame_end] row.  The node's own file path row is
    there exactly when no domain with a smoke modifier is selected (then the
    two frame rows are the node's own; otherwise they are those of the
    modifier's point cache), and the warning label exactly when no domain is
    selected. *)
Theorem draw_buttons_rows :
  forall find self,
    let rows := draw_buttons find self in
    (exists rest,
        rows = [UsePropertySplit true; UsePropertyDecorate false; PropRow OfNode "domain"]
               ++ rest) /\
    (In (PropRow OfNode "file_path") rows <->
     domain self = None \/ exists o, domain self = Some o /\ find o = None) /\
    (forall m,
       In (PropRow (OfPointCache m) "frame_start") rows /\
       In (PropRow (OfPointCache m) "frame_end") rows <->
       exists o, domain self = Some o /\ find o = Some m) /\
    (In (PropRow OfNode "frame_start") rows /\ In (PropRow OfNode "frame_end") rows <->
     In (PropRow OfNode "file_path") rows) /\
    ((exists text, In (WarningLabel text) rows) <-> domain self = None).
Proof.
  intros find self rows. subst rows. unfold draw_buttons.
  destruct (domain self) as [o|] eqn:Hdom;
    [destruct (find o) as [m|] eqn:Hfind|]; cbn [app In];
    (split; [eexists; reflexivity|]); (split; [|split; [|split]]).
  - split.
    + intros H. rows_in H.
    + intros [H | (o' & Ho & Hn)]; [discriminate | congruence].
  - intros m0. split.
    + intros [H _]. rows_in H. inversion H; subst. now exists o.
    + intros (o' & Ho & Hm). assert (m0 = m) by congruence. subst. split; auto 8.
  - split.
    + intros [H _]. rows_in H.
    + intros H. rows_in H.
  - split.
    + intros [text H]. rows_in H.
    + discriminate.
  - split.
    + intros _. right. now exists o.
    + auto 8.
  - intros m0. split.
    + intros [H _]. rows_in H.
    + intros (o' & Ho & Hm). congruence.
  - split; auto 8.
  - split.
    + intros [text H]. rows_in H.
    + discriminate.
  - split; auto 8.
  - intros m0. split.
    + intros [H _]. rows_in H.
    + intros (o' & Ho & _). discriminate.
  - split; auto 8.
  - split; [reflexivity|].
    intros _. eexists. do 6 right. left. reflexivity.
Qed.

Lemma draw_buttons_rows_witness :
  exists o, domain Cases.pathless_node = Some o /\
            Cases.find_modifier o = Some (ModifierRef 0).
Proof.
  apply (proj1 (proj1 (proj2 (proj2 (draw_buttons_rows Cases.find_modifier
                                       Cases.pathless_node)))
                  (ModifierRef 0))).
  cbn. split; auto 8.
Defined.

(** X24. With a smoke domain selected the panel shows neither the node's file
    path nor a warning; but the export still wants the path.  If it is empty,
    [sub_export] exports constant black, and the warning it logs says that no
    domain object is selected. *)
Theorem hidden_file_path_exports_black :
  forall find env self o m x depsgraph props luxcore_name output_socket,
    domain self = Some o ->
    find o = Some m ->
    file_path self = "" ->
    ~ In (PropRow OfNode "file_path") (draw_buttons find self) /\
    (forall text, ~ In (WarningLabel text) (draw_buttons find self)) /\
    sub_export env self x depsgraph props luxcore_name output_socket =
      (create_props env props constant_black luxcore_name,
       [EAddWarning (warning_message self "No Domain object selected.");
        ECreateProps props constant_black luxcore_name]).
Proof.
  intros find env self o m x0 depsgraph props0 luxcore_name output_socket
         Hdom Hfind Hpath.
  split; [|split].
  - unfold draw_buttons. rewrite Hdom, Hfind. cbn [app In]. intros H. rows_in H.
  - intros text. unfold draw_buttons. rewrite Hdom, Hfind. cbn [app In].
    intros H. rows_in H.
  - unfold sub_export, no_domain. rewrite Hdom, Hpath. cbn [orb String.eqb].
    unfold nbind, ncall.
    destruct (create_props env props0 constant_black luxcore_name); reflexivity.
Qed.

Lemma hidden_file_path_exports_black_witness :
  sub_export Samples.node_env Cases.pathless_node Samples.exporter0 Samples.depsgraph0
             (PropsRef 0) (Some "smoke") (Some (mkSocket "density")) =
    (Returns "smoke",
     [EAddWarning (warning_message Cases.pathless_node "No Domain object selected.");
      ECreateProps (PropsRef 0) constant_black (Some "smoke")]).
Proof.
  apply (proj2 (proj2 (hidden_file_path_exports_black
                         Cases.find_modifier Samples.node_env Cases.pathless_node
                         Cases.domain0 (ModifierRef 0) Samples.exporter0
                         Samples.depsgraph0 (PropsRef 0) (Some "smoke")
                         (Some (mkSocket "density")) eq_refl eq_refl eq_refl))).
Defined.

(** ** Switching between the value and the colour socket *)

Lemma outputs_get_set_same :
  forall key v outs,
    outputs_get key (outputs_set_enabled key v outs) =
      match outputs_get key outs with
      | Some o => Some (mkOutput (bl_idname o) (socket o) v)
      | None => None
      end.
Proof.
  intros key v outs. induction outs as [|o rest IH].
  - reflexivity.
  - cbn [outputs_get outputs_set_enabled].
    destruct (String.eqb (socket_name (socket o)) key) eqn:Heq;
      cbn [outputs_get socket]; rewrite Heq; [reflexivity | exact IH].
Qed.

Lemma outputs_get_set_other :
  forall key key' v outs,
    key <> key' ->
    outputs_get key' (outputs_set_enabled key v outs) = outputs_get key' outs.
Proof.
  intros key key' v outs Hneq. induction outs as [|o rest IH].
  - reflexivity.
  - cbn [outputs_get outputs_set_enabled].
    destruct (String.eqb (socket_name (socket o)) key) eqn:Heq;
      cbn [outputs_get socket].
    + apply String.eqb_eq in Heq.
      destruct (String.eqb (socket_name (socket o)) key') eqn:Heq';
        [apply String.eqb_eq in Heq'; congruence | reflexivity].
    + destruct (String.eqb (socket_name (socket o)) key'); [reflexivity | exact IH].
Qed.

Lemma outputs_set_enabled_sockets :
  forall key v outs,
    map (fun o => (bl_idname o, socket o)) (outputs_set_enabled key v outs)
    = map (fun o => (bl_idname o, socket o)) outs.
Proof.
  intros key v outs. induction outs as [|o rest IH].
  - reflexivity.
  - cbn [outputs_set_enabled].
    destruct (String.eqb (socket_name (socket o)) key); cbn [map bl_idname socket];
      [reflexivity | now rewrite IH].
Qed.

Lemma sources_are_disjoint :
  forall src,
    str_in src ["density"; "fire"; "heat"] && str_in src ["color"; "velocity"] = false.
Proof.
  intros src. unfold str_in. cbn [existsb].
  destruct (String.eqb_spec src "density") as [->|_]; [reflexivity|].
  destruct (String.eqb_spec src "fire") as [->|_]; [reflexivity|].
  destruct (String.eqb_spec src "heat") as [->|_]; reflexivity.
Qed.

(** X25. On a node that has a socket named Value and one named Color,
    [update_source] enables the first exactly for the sources density, fire
    and heat and the second exactly for color and velocity, so never both,
    and for any other source neither.  It keeps every socket in its place
    with its class, changes no property, and reports to the link helper
    whether the value socket was enabled before. *)
Theorem update_source_enables_at_most_one :
  forall lib src d value_output color_output,
    outputs_get "Value" (outputs d) = Some value_output ->
    outputs_get "Color" (outputs d) = Some color_output ->
    let r := update_source lib (Returns src) d in
    let d' := snd (fst r) in
    outputs_get "Value" (outputs d') =
      Some (mkOutput (bl_idname value_output) (socket value_output)
                     (str_in src ["density"; "fire"; "heat"])) /\
    outputs_get "Color" (outputs d') =
      Some (mkOutput (bl_idname color_output) (socket color_output)
                     (str_in src ["color"; "velocity"])) /\
    str_in src ["density"; "fire"; "heat"] && str_in src ["color"; "velocity"] = false /\
    map (fun o => (bl_idname o, socket o)) (outputs d')
      = map (fun o => (bl_idname o, socket o)) (outputs d) /\
    props d' = props d /\
    fst (fst r) = copy_links_after_socket_swap lib "Value" "Color" (enabled value_output) /\
    snd r = [CCopyLinks "Value" "Color" (enabled value_output)].
Proof.
  intros lib src d value_output color_output Hvalue Hcolor r d'. subst d' r.
  unfold update_source. rewrite Hvalue, Hcolor. cbn [fst snd outputs props].
  repeat split.
  - rewrite outputs_get_set_other by discriminate.
    rewrite outputs_get_set_same, Hvalue. reflexivity.
  - rewrite outputs_get_set_same, outputs_get_set_other by discriminate.
    rewrite Hcolor. reflexivity.
  - apply sources_are_disjoint.
  - rewrite !outputs_set_enabled_sockets. reflexivity.
Qed.

Lemma update_source_enables_at_most_one_witness :
  outputs_get "Value"
    (outputs (snd (fst (update_source Cases.smoke_lib (Returns "fire")
                          Cases.value_color_node))))
    = Some (mkOutput "LuxCoreSocketFloatPositive" (mkSocket "Value") true) /\
  outputs_get "Color"
    (outputs (snd (fst (update_source Cases.smoke_lib (Returns "fire")
                          Cases.value_color_node))))
    = Some (mkOutput "LuxCoreSocketColor" (mkSocket "Color") false).
Proof.
  destruct (update_source_enables_at_most_one
              Cases.smoke_lib "fire" Cases.value_color_node
              (mkOutput "LuxCoreSocketFloatPositive" (mkSocket "Value") false)
              (mkOutput "LuxCoreSocketColor" (mkSocket "Color") true)
              eq_refl eq_refl) as (Hvalue & Hcolor & _).
  split; [exact Hvalue | exact Hcolor].
Defined.

Lemma outputs_get_missing :
  forall key outs,
    ~ In key (map (fun o => socket_name (socket o)) outs) ->
    outputs_get key outs = None.
Proof.
  intros key outs. induction outs as [|o rest IH]; intros Hnot.
  - reflexivity.
  - cbn [outputs_get]. cbn [map In] in Hnot.
    destruct (String.eqb_spec (socket_name (socket o)) key) as [Heq|_].
    + exfalso. apply Hnot. now left.
    + apply IH. intros Hin. apply Hnot. now right.
Qed.

(** X26. The sockets of this node come from the grids of the file, and
    [update_source] looks for two sockets named Value and Color.  After
    [update_file_path] on a file that has no grid of one of these names,
    [update_source] raises [KeyError] before it reads the source or changes
    anything. *)
Theorem update_source_needs_value_and_color_grids :
  forall env lib d names source,
    file_path (props d) <> "" ->
    let path := abspath env (file_path (props d)) in
    GetOpenVDBGridNames lib path = Returns names ->
    (forall n, In n names -> exists b t, GetOpenVDBGridInfo lib path n = Returns (b, t)) ->
    ~ In "Value" names \/ ~ In "Color" names ->
    let d' := snd (fst (update_file_path env lib d)) in
    exists key,
      (key = "Value" \/ key = "Color") /\
      update_source lib source d' = (Raises (key_error key), d', []).
Proof.
  intros env lib d names source Hpath path Hnames Hall Hmissing d'.
  assert (Hsockets : map (fun o => socket_name (socket o)) (outputs d') = names).
  { subst d'. destruct (update_file_path_run env lib d names Hpath Hnames) as (Hd & _).
    fold path in Hd. rewrite Hd. cbn [outputs]. rewrite map_map.
    exact (readable_all lib path names Hall). }
  unfold update_source.
  destruct (outputs_get "Value" (outputs d')) as [value_output|] eqn:Hvalue.
  - destruct Hmissing as [Hno | Hno].
    + rewrite outputs_get_missing in Hvalue by (rewrite Hsockets; exact Hno).
      discriminate.
    + rewrite outputs_get_missing by (rewrite Hsockets; exact Hno).
      exists "Color". split; [now right | reflexivity].
  - exists "Value". split; [now left | reflexivity].
Qed.

Lemma update_source_needs_value_and_color_grids_witness :
  exists key,
    (key = "Value" \/ key = "Color") /\
    update_source Cases.smoke_lib (Returns "fire")
      (snd (fst (update_file_path Samples.node_env Cases.smoke_lib Cases.vdb_node)))
    = (Raises (key_error key),
       snd (fst (update_file_path Samples.node_env Cases.smoke_lib Cases.vdb_node)),
       []).
Proof.
  refine (update_source_needs_value_and_color_grids
            Samples.node_env Cases.smoke_lib Cases.vdb_node ["density"; "velocity"]
            (Returns "fire") _ eq_refl _ _).
  - discriminate.
  - intros n [<- | [<- | []]]; do 2 eexists; reflexivity.
  - left. intros [H | [H | []]]; discriminate.
Defined.

End VDBNodeFacts.
